(** * The order-entry application: models, form, views and URLconf

    A shallow embedding of [crudapp] (models.py, forms.py, views.py,
    urls.py).  The application code is a few lines of glue over the web
    framework; the embedding keeps the two apart:

    - what the application declares (the [Orders] fields, the form's
      [Meta], the two views, [urlpatterns]) is transcribed from its files;
    - what the framework does when the views call it (form cleaning, the
      uniqueness check of a model form, [Model.save], [reverse],
      [redirect], [render]) is modelled below, one definition per
      framework method, under the method's name.

    What the framework leaves to its own conversions and to the database
    is a parameter of the development, the class [Framework]: reading an
    integer and a floating-point number from submitted text, the syntax
    check of an e-mail address, the bounds of an integer column, and the
    order in which the rows of a table come back. *)

From stdpp Require Import base option strings list gmap.
From Stdlib Require Import ZArith Ascii.

Local Open Scope Z_scope.

(** ** Python values the views handle *)

(** Exceptions that the modelled calls can raise. *)
Inductive exn : Type :=
  | IntegrityError
  | NoReverseMatch
  | ValueError
  | Http404.

(** A call either returns or raises. *)
Inductive result (A : Type) : Type :=
  | Ok (a : A)
  | Raise (e : exn).
Arguments Ok {A} a.
Arguments Raise {A} e.

(** ** Text helpers: [str.strip] and membership of a character *)

Module Str.

(** [str.isspace] on the characters below U+0100. *)
Definition isspace (c : ascii) : bool :=
  let n := nat_of_ascii c in
  ((9 <=? n) && (n <=? 13) || (28 <=? n) && (n <=? 32)
   || (n =? 133) || (n =? 160))%nat.

Fixpoint lstrip (s : string) : string :=
  match s with
  | EmptyString => EmptyString
  | String c s' => if isspace c then lstrip s' else s
  end.

Definition rstrip (s : string) : string :=
  String.rev (lstrip (String.rev s)).

Definition strip (s : string) : string := rstrip (lstrip s).

(** [c in s] *)
Fixpoint contains (c : ascii) (s : string) : bool :=
  match s with
  | EmptyString => false
  | String c' s' => if decide (c' = c) then true else contains c s'
  end.

End Str.

(** ** models.py *)

Section Application.

Context {float : Type}.

(** [class Orders(models.Model)]: one row of the table. *)
Record Orders : Type := {
  oid : Z;            (* models.IntegerField(primary_key=True) *)
  fname : string;     (* models.CharField(max_length=20) *)
  lname : string;     (* models.CharField(max_length=20) *)
  price : float;      (* models.FloatField() *)
  mail : string;      (* models.EmailField() *)
  addr : string       (* models.CharField(max_length=50) *)
}.

(** [Orders.__str__] *)
Definition Orders__str__ (self : Orders) : string := fname self.

(** The field classes used by the model. *)
Inductive FieldClass : Type :=
  | IntegerField
  | CharField
  | FloatField
  | EmailField.

(** A field declaration: its class and the keyword arguments that
    models.py passes or leaves at their defaults ([blank=False],
    [primary_key=False]; an [EmailField] has [max_length=254] when none is
    given). *)
Record ModelField : Type := {
  name : string;
  field_class : FieldClass;
  max_length : option nat;
  primary_key : bool;
  blank : bool
}.

Definition Orders_oid : ModelField :=
  {| name := "oid"; field_class := IntegerField; max_length := None;
     primary_key := true; blank := false |}.

Definition Orders_fname : ModelField :=
  {| name := "fname"; field_class := CharField; max_length := Some 20%nat;
     primary_key := false; blank := false |}.

Definition Orders_lname : ModelField :=
  {| name := "lname"; field_class := CharField; max_length := Some 20%nat;
     primary_key := false; blank := false |}.

Definition Orders_price : ModelField :=
  {| name := "price"; field_class := FloatField; max_length := None;
     primary_key := false; blank := false |}.

Definition Orders_mail : ModelField :=
  {| name := "mail"; field_class := EmailField; max_length := Some 254%nat;
     primary_key := false; blank := false |}.

Definition Orders_addr : ModelField :=
  {| name := "addr"; field_class := CharField; max_length := Some 50%nat;
     primary_key := false; blank := false |}.

(** The fields of [Orders], in the order of their declaration. *)
Definition Orders_fields : list ModelField :=
  [ Orders_oid; Orders_fname; Orders_lname;
    Orders_price; Orders_mail; Orders_addr ].

(** The table [crudapp_orders]: its rows, oldest first. *)
Definition table : Type := list Orders.

(** ** What the framework and the database decide

    - [to_int] and [to_float] are [to_python] of the integer and float
      form fields, applied to a submitted text that is not empty ([None]
      when the text is rejected);
    - [validate_email] is the verdict of the e-mail validator;
    - [integer_field_range] is
      [connection.ops.integer_field_range("IntegerField")], the bounds
      that the database backend gives for an integer column, each of
      which may be absent;
    - [precedes] is the order in which the database hands out the rows of
      a query that asks for none: a row is placed before the first row
      that it precedes. *)
Class Framework : Type := {
  to_int : string → option Z;
  to_float : string → option float;
  validate_email : string → bool;
  integer_field_range : option Z * option Z;
  precedes : Orders → Orders → bool
}.

Context {fw : Framework}.

(** ** The framework's form fields

    A model form derives one form field from each model field; the
    definitions of this part follow the framework's field classes. *)

(** Values of cleaned data and of model attributes. *)
Inductive pyval : Type :=
  | PyNone
  | PyInt (z : Z)
  | PyFloat (x : float)
  | PyStr (s : string).

(** Outcome of [Field.clean]: the cleaned value, or a [ValidationError]
    carrying the codes of its messages. *)
Inductive cleaned (A : Type) : Type :=
  | Clean (a : A)
  | ValidationError (codes : list string).
Global Arguments Clean {A} a.
Global Arguments ValidationError {A} codes.

(** [request.POST]: the submitted text of each field that was sent. *)
Abbreviation QueryDict := (gmap string string).

(** [value in self.empty_values] for what a widget hands to its field:
    [None] when the key was not sent, or the empty text. *)
Definition in_empty_values (value : option string) : bool :=
  match value with
  | None => true
  | Some s => bool_decide (s = "")
  end.

(** A validator answers with the code of its error, if any. *)
Definition validator : Type := string → option string.

Definition MaxLengthValidator (limit_value : nat) : validator :=
  λ value, if (limit_value <? String.length value)%nat
           then Some "max_length" else None.

Definition ProhibitNullCharactersValidator : validator :=
  λ value, if Str.contains "000"%char value
           then Some "null_characters_not_allowed" else None.

Definition EmailValidator : validator :=
  λ value, if validate_email value then None else Some "invalid".

(** [Field.run_validators]: every validator runs, the errors are
    collected in order. *)
Definition run_validators (validators : list validator) (value : string)
  : list string :=
  omap (λ v : validator, v value) validators.

(** The validators of the form field of a text column: the class's
    default validators, then the length limit, then the check for null
    characters. *)
Definition validators (f : ModelField) : list validator :=
  match field_class f with EmailField => [EmailValidator] | _ => [] end
  ++ match max_length f with Some n => [MaxLengthValidator n] | None => [] end
  ++ [ProhibitNullCharactersValidator].

(** [forms.CharField.to_python]: a value that is not empty is stripped;
    an empty one becomes the empty text. *)
Definition CharField_to_python (value : option string) : string :=
  match value with
  | None => ""
  | Some s => Str.strip s
  end.

(** [Field.clean] of the form field derived from model field [f], on the
    submitted [value]: [to_python], then [validate] (the required check),
    then [run_validators].  The form field is required unless the model
    field has [blank=True]. *)
Definition formfield_clean (f : ModelField) (value : option string)
  : cleaned pyval :=
  let required := negb (blank f) in
  match field_class f with
  | IntegerField =>
      match value with
      | Some s =>
          if bool_decide (s = "") then
            if required then ValidationError ["required"] else Clean PyNone
          else match to_int s with
               | Some z => Clean (PyInt z)
               | None => ValidationError ["invalid"]
               end
      | None =>
          if required then ValidationError ["required"] else Clean PyNone
      end
  | FloatField =>
      match value with
      | Some s =>
          if bool_decide (s = "") then
            if required then ValidationError ["required"] else Clean PyNone
          else match to_float s with
               | Some x => Clean (PyFloat x)
               | None => ValidationError ["invalid"]
               end
      | None =>
          if required then ValidationError ["required"] else Clean PyNone
      end
  | CharField | EmailField =>
      let value := CharField_to_python value in
      if bool_decide (value = "") then
        if required then ValidationError ["required"] else Clean (PyStr "")
      else match run_validators (validators f) value with
           | [] => Clean (PyStr value)
           | codes => ValidationError codes
           end
  end.

(** ** The framework's model fields

    The instance of a model form is validated a second time, by the model
    fields themselves ([Model.full_clean]). *)

Definition MinValueValidator (limit_value : Z) : Z → option string :=
  λ value, if value <? limit_value then Some "min_value" else None.

Definition MaxValueValidator (limit_value : Z) : Z → option string :=
  λ value, if limit_value <? value then Some "max_value" else None.

(** The validators of [models.IntegerField]: the bounds of the column in
    the database, where it has them. *)
Definition IntegerField_validators : list (Z → option string) :=
  match integer_field_range.1 with
  | Some min_value => [MinValueValidator min_value]
  | None => []
  end
  ++ match integer_field_range.2 with
     | Some max_value => [MaxValueValidator max_value]
     | None => []
     end.

(** The validators of a text column: the class's default validators, then
    the length limit. *)
Definition model_validators (f : ModelField) : list validator :=
  match field_class f with EmailField => [EmailValidator] | _ => [] end
  ++ match max_length f with Some n => [MaxLengthValidator n] | None => [] end.

(** [models.Field.clean] on the attribute [value] of the instance, as
    [Model.clean_fields] calls it: a field with [blank=True] is skipped
    when its value is empty; otherwise [validate] refuses [None] and an
    empty text, and [run_validators] runs the validators of the field.
    The codes of the errors, none when the value is accepted. *)
Definition model_field_clean (f : ModelField) (value : pyval) : list string :=
  match value with
  | PyNone => if blank f then [] else ["null"]
  | PyInt z =>
      match field_class f with
      | IntegerField => omap (λ v : Z → option string, v z) IntegerField_validators
      | _ => []
      end
  | PyFloat _ => []
  | PyStr x =>
      if bool_decide (x = "") then
        if blank f then [] else ["blank"]
      else run_validators (model_validators f) x
  end.

(** ** forms.py: [class OrderForm(forms.ModelForm)] *)

(** [Meta.fields = '__all__']: every field of [Meta.model = Orders]. *)
Definition Meta_fields : list ModelField := Orders_fields.

(** [Meta.labels] and the placeholders of [Meta.widgets]. *)
Definition Meta_labels : list (string * string) :=
  [ ("oid", "Order ID"); ("fname", "First Name"); ("lname", "Last Name.");
    ("price", "Price"); ("mail", "Email ID"); ("addr", "Address") ].

Definition Meta_placeholders : list (string * string) :=
  [ ("oid", "eg. 101"); ("fname", "eg. Prosenjeet"); ("lname", "eg. Shil");
    ("price", "eg. 10000"); ("mail", "eg. abc@xyz.com"); ("addr", "eg. IN") ].

(** [form.errors]: field name to the codes of its errors. *)
Abbreviation ErrorDict := (gmap string (list string)).

(** A form object.  [_errors] is [None] until [full_clean] has run. *)
Record OrderForm : Type := {
  is_bound : bool;
  data : QueryDict;
  _errors : option ErrorDict;
  cleaned_data : gmap string pyval
}.

(** [OrderForm()] and [OrderForm(request.POST)]. *)
Definition OrderForm__init__ (data : option QueryDict) : OrderForm :=
  {| is_bound := bool_decide (data ≠ None);
     data := default ∅ data;
     _errors := None;
     cleaned_data := ∅ |}.

(** [add_error(field, error)]: the codes extend the field's list, and the
    field leaves the cleaned data. *)
Definition add_error (field : string) (codes : list string)
    (st : ErrorDict * gmap string pyval) : ErrorDict * gmap string pyval :=
  (<[field := default [] (st.1 !! field) ++ codes]> st.1, delete field st.2).

(** One turn of the loop of [_clean_fields]. *)
Definition clean_field (data : QueryDict)
    (st : ErrorDict * gmap string pyval) (f : ModelField)
  : ErrorDict * gmap string pyval :=
  match formfield_clean f (data !! name f) with
  | Clean value => (st.1, <[name f := value]> st.2)
  | ValidationError codes => add_error (name f) codes st
  end.

Definition _clean_fields (data : QueryDict) : ErrorDict * gmap string pyval :=
  foldl (clean_field data) (∅, ∅) Meta_fields.

(** [Orders.objects.filter(oid=z).exists()] *)
Definition exists_oid (z : Z) (db : table) : bool :=
  existsb (λ r, bool_decide (oid r = z)) db.

(** One turn of the loop of [Model.clean_fields], for the instance whose
    attributes are [instance]: a field of [exclude] is skipped, the
    errors of another are added to the form's. *)
Definition instance_clean_field (exclude : gset string)
    (instance : gmap string pyval)
    (st : ErrorDict * gmap string pyval) (f : ModelField)
  : ErrorDict * gmap string pyval :=
  if decide (name f ∈ exclude) then st
  else match instance !! name f with
       | Some value =>
           match model_field_clean f value with
           | [] => st
           | codes => add_error (name f) codes st
           end
       | None => st
       end.

(** [instance.full_clean(exclude=exclude, validate_unique=False)], its
    errors handed to the form: [Orders] overrides no [clean] and declares
    no constraint, so only the fields are cleaned. *)
Definition instance_full_clean (exclude : gset string)
    (instance : gmap string pyval) (st : ErrorDict * gmap string pyval)
  : ErrorDict * gmap string pyval :=
  foldl (instance_clean_field exclude instance) st Orders_fields.

(** [validate_unique]: the unique checks of the instance on the fields
    that are not excluded.  [Orders] has one unique field, its primary
    key; the instance is a new one, so the check asks whether a row with
    this key exists. *)
Definition validate_unique (exclude : gset string)
    (instance : gmap string pyval) (db : table)
    (st : ErrorDict * gmap string pyval) : ErrorDict * gmap string pyval :=
  if decide ("oid" ∈ exclude) then st
  else match instance !! "oid" with
       | Some (PyInt z) =>
           if exists_oid z db then add_error "oid" ["unique"] st else st
       | _ => st
       end.

(** [_post_clean]: the fields that failed are excluded; the instance
    takes the cleaned values, is cleaned by its model fields, and its
    unique checks run, with the same exclusions. *)
Definition _post_clean (db : table) (st : ErrorDict * gmap string pyval)
  : ErrorDict * gmap string pyval :=
  let exclude : gset string := dom st.1 in
  let instance := st.2 in
  validate_unique exclude instance db
    (instance_full_clean exclude instance st).

(** [full_clean]: nothing to do for an unbound form; otherwise the fields
    are cleaned, then the form ([clean] is not overridden), then the
    instance. *)
Definition full_clean (db : table) (self : OrderForm) : OrderForm :=
  if negb (is_bound self) then
    {| is_bound := is_bound self; data := data self;
       _errors := Some ∅; cleaned_data := cleaned_data self |}
  else
    let st := _post_clean db (_clean_fields (data self)) in
    {| is_bound := is_bound self; data := data self;
       _errors := Some st.1; cleaned_data := st.2 |}.

(** The property [form.errors]: cleans the form on first use. *)
Definition errors (db : table) (self : OrderForm) : ErrorDict * OrderForm :=
  match _errors self with
  | Some e => (e, self)
  | None =>
      let self' := full_clean db self in (default ∅ (_errors self'), self')
  end.

(** [is_valid]: [self.is_bound and not self.errors]. *)
Definition is_valid (db : table) (self : OrderForm) : bool * OrderForm :=
  if is_bound self then
    let '(e, self') := errors db self in (bool_decide (e = ∅), self')
  else (false, self).

(** ** The framework's [Model.save] *)

(** [construct_instance]: the instance's attributes are the cleaned
    values.  All six are present when the form has no error. *)
Definition construct_instance (cd : gmap string pyval) : option Orders :=
  match cd !! "oid", cd !! "fname", cd !! "lname",
        cd !! "price", cd !! "mail", cd !! "addr" with
  | Some (PyInt o), Some (PyStr f), Some (PyStr l),
    Some (PyFloat p), Some (PyStr m), Some (PyStr a) =>
      Some {| oid := o; fname := f; lname := l;
              price := p; mail := m; addr := a |}
  | _, _, _, _, _, _ => None
  end.

(** [_do_update]: [UPDATE ... WHERE oid = pk_val]; tells whether a row
    was matched. *)
Definition _do_update (pk_val : Z) (values : Orders) (db : table)
  : bool * table :=
  (exists_oid pk_val db,
   (λ r, if bool_decide (oid r = pk_val) then values else r) <$> db).

(** [_do_insert]: [INSERT]; the primary-key constraint of the table
    refuses a key that is already there. *)
Definition _do_insert (values : Orders) (db : table) : result unit * table :=
  if exists_oid (oid values) db then (Raise IntegrityError, db)
  else (Ok (), db ++ [values]).

(** [Model.save] ([_save_table]): the key is set and has no default, so
    an UPDATE is tried first, and the INSERT happens when no row was
    updated. *)
Definition Model_save (self : Orders) (db : table) : result unit * table :=
  let '(updated, db') := _do_update (oid self) self db in
  if updated then (Ok (), db') else _do_insert self db'.

(** [form.save()]: reads [self.errors], which cleans the form if that
    was not done, refuses a form with errors, else saves the instance. *)
Definition save (self : OrderForm) (db : table) : result unit * table :=
  let '(e, self) := errors db self in
  if bool_decide (e = ∅) then
    match construct_instance (cleaned_data self) with
    | Some instance => Model_save instance db
    | None => (Raise ValueError, db)
    end
  else (Raise ValueError, db).

(** The rows of a query that asks for no order come back in the order of
    the database: each row stands before the first row that it
    [precedes]. *)
Fixpoint insert_row (r : Orders) (rows : list Orders) : list Orders :=
  match rows with
  | [] => [r]
  | x :: rows' => if precedes r x then r :: rows else x :: insert_row r rows'
  end.

(** [Orders.objects.all()]: every row of the table; [Orders] declares no
    ordering. *)
Definition objects_all (db : table) : list Orders :=
  foldr insert_row [] db.

(** ** urls.py *)

(** The view functions that [urlpatterns] names. *)
Inductive view : Type :=
  | views_orderFormView
  | views_showView.

Record URLPattern : Type := {
  route : string;
  callback : view;
  pattern_name : string
}.

Definition path (route : string) (callback : view) (name : string)
  : URLPattern :=
  {| route := route; callback := callback; pattern_name := name |}.

Definition urlpatterns : list URLPattern :=
  [ path "ofv" views_orderFormView "order_url";
    path "sv" views_showView "show_url" ].

(** [resolve]: the first pattern whose route is the requested path (paths
    are relative to where the project mounts the application). *)
Definition resolve (p : string) : option URLPattern :=
  list_find (λ u, route u = p) urlpatterns ≫= λ iu, Some iu.2.

(** [reverse(viewname)]: the route of the pattern of that name, relative
    to the same mount point. *)
Definition reverse (viewname : string) : result string :=
  match list_find (λ u, pattern_name u = viewname) urlpatterns with
  | Some (_, u) => Ok (route u)
  | None => Raise NoReverseMatch
  end.

(** ** Requests and responses *)

Record HttpRequest : Type := {
  method : string;
  POST : QueryDict
}.

(** What a template is rendered with. *)
Inductive ctxvalue : Type :=
  | CtxForm (form : OrderForm)
  | CtxQuerySet (rows : list Orders).

(** A response: its status, its [Location] header if it has one, and, if
    it was rendered, what it was rendered from: the request, the template
    and the context. *)
Record HttpResponse : Type := {
  status_code : nat;
  location : option string;
  rendered : option (HttpRequest * string * gmap string ctxvalue)
}.

(** [render(request, template_name, context)] *)
Definition render (request : HttpRequest) (template_name : string)
    (context : gmap string ctxvalue) : HttpResponse :=
  {| status_code := 200; location := None;
     rendered := Some (request, template_name, context) |}.

Definition HttpResponseRedirect (redirect_to : string) : HttpResponse :=
  {| status_code := 302; location := Some redirect_to; rendered := None |}.

(** [resolve_url(to)]: [to] is reversed as a pattern name; a name that
    does not reverse is taken as a URL only if it has a slash or a dot. *)
Definition resolve_url (to : string) : result string :=
  match reverse to with
  | Ok url => Ok url
  | Raise e =>
      if Str.contains "/"%char to || Str.contains "."%char to
      then Ok to else Raise e
  end.

(** [redirect(to)] *)
Definition redirect (to : string) : result HttpResponse :=
  match resolve_url to with
  | Ok url => Ok (HttpResponseRedirect url)
  | Raise e => Raise e
  end.

(** ** views.py *)

(** A view maps a request and the table to a response, or an exception,
    and the table it leaves. *)
Definition orderFormView (request : HttpRequest) (db : table)
  : result HttpResponse * table :=
  let form := OrderForm__init__ None in
  let template_name := "crudapp/order.html" in
  if bool_decide (method request = "POST") then
    let form := OrderForm__init__ (Some (POST request)) in
    let '(valid, form) := is_valid db form in
    if valid then
      match save form db with
      | (Ok _, db') => (redirect "show_url", db')
      | (Raise e, db') => (Raise e, db')
      end
    else
      let context := {[ "form" := CtxForm form ]} in
      (Ok (render request template_name context), db)
  else
    let context := {[ "form" := CtxForm form ]} in
    (Ok (render request template_name context), db).

Definition showView (request : HttpRequest) (db : table)
  : result HttpResponse * table :=
  let obj := objects_all db in
  let template_name := "crudapp/show.html" in
  let context := {[ "obj" := CtxQuerySet obj ]} in
  (Ok (render request template_name context), db).

(** ** Serving a request *)

Definition call (v : view) : HttpRequest → table → result HttpResponse * table :=
  match v with
  | views_orderFormView => orderFormView
  | views_showView => showView
  end.

(** The handler: the path is resolved and the view called; a path that
    no pattern matches is answered by [Http404]. *)
Definition get_response (p : string) (request : HttpRequest) (db : table)
  : result HttpResponse * table :=
  match resolve p with
  | Some u => call (callback u) request db
  | None => (Raise Http404, db)
  end.

(** ** What a form shows *)

(** The initial value of a field: the form is built without an instance
    and without [initial], and no field of [Orders] declares a default, so
    every field starts at [None]. *)
Definition initial (f : ModelField) : option string := None.

(** [BoundField.value()]: the submitted text of a bound form, the initial
    value of an unbound one. *)
Definition value (self : OrderForm) (f : ModelField) : option string :=
  if is_bound self then data self !! name f else initial f.

(** [response.context['form']] and [response.context['obj']] *)
Definition context_form (response : HttpResponse) : option OrderForm :=
  match rendered response with
  | Some (_, _, context) =>
      match context !! "form" with
      | Some (CtxForm form) => Some form
      | _ => None
      end
  | None => None
  end.

Definition context_obj (response : HttpResponse) : option (list Orders) :=
  match rendered response with
  | Some (_, _, context) =>
      match context !! "obj" with
      | Some (CtxQuerySet rows) => Some rows
      | _ => None
      end
  | None => None
  end.

End Application.

(** ** An instance of the framework's conversions

    Enough of the three conversions to run the views on examples: whole
    numbers written in decimal digits, prices that are whole amounts, and
    addresses with one at sign, text without spaces before it and a dotted
    name without spaces after it.  On the texts of the examples below the
    instance answers as the framework's own conversions do.  The integer
    columns have 64 bits and the rows come back by ascending key. *)

Module Demo.

Definition float : Type := Z.

Fixpoint digits (s : string) (acc : Z) : option Z :=
  match s with
  | EmptyString => Some acc
  | String c s' =>
      match Ascii.is_nat c with
      | Some d => digits s' (10 * acc + Z.of_nat d)
      | None => None
      end
  end.

Definition read_int (s : string) : option Z :=
  if bool_decide (s = "") then None else digits s 0.

Definition read_float (s : string) : option float := read_int s.

(** The text after the first at sign. *)
Fixpoint domain_part (s : string) : option string :=
  match s with
  | EmptyString => None
  | String c s' => if bool_decide (c = "@"%char) then Some s' else domain_part s'
  end.

Definition atom (s : string) : bool :=
  negb (Str.contains " "%char s) && negb (Str.contains "@"%char s).

Definition is_address (s : string) : bool :=
  match s, domain_part s with
  | String c _, Some d =>
      negb (bool_decide (c = "@"%char)) && negb (Str.contains " "%char s)
      && atom d && Str.contains "."%char d
  | _, _ => false
  end.

(** The bounds of an integer column of 64 bits. *)
Definition int64_range : option Z * option Z :=
  (Some (-9223372036854775808), Some 9223372036854775807).

(** Rows come back by ascending key. *)
Definition by_key (r1 r2 : @Orders float) : bool := oid r1 <=? oid r2.

#[global] Instance framework : @Framework float :=
  {| to_int := read_int; to_float := read_float;
     validate_email := is_address;
     integer_field_range := int64_range; precedes := by_key |}.

Definition orderFormView := @orderFormView float framework.
Definition showView := @showView float framework.
Definition get_response := @get_response float framework.

(** [form.errors] *)
Definition form_errors (db : table) (form : OrderForm) : gmap string (list string) :=
  (errors db form).1.

(** A submission of the six fields. *)
Definition submission (oid fname lname price mail addr : string)
  : HttpRequest :=
  {| method := "POST";
     POST := {[ "oid" := oid; "fname" := fname; "lname" := lname;
                "price" := price; "mail" := mail; "addr" := addr ]} |}.

(** The same submission with one field left out. *)
Definition without (field : string) (request : HttpRequest) : HttpRequest :=
  {| method := method request; POST := delete field (POST request) |}.

Definition get : HttpRequest := {| method := "GET"; POST := ∅ |}.

Definition asha : Orders :=
  {| oid := 101; fname := "Asha"; lname := "Rao"; price := 10000 : float;
     mail := "asha@example.com"; addr := "IN" |}.

Definition bela : Orders :=
  {| oid := 102; fname := "Bela"; lname := "Sen"; price := 250 : float;
     mail := "bela@example.com"; addr := "IN" |}.

Definition chitra : Orders :=
  {| oid := 103; fname := "Chitra"; lname := "Das"; price := 75 : float;
     mail := "chitra@example.com"; addr := "IN" |}.

Definition asha_submits : HttpRequest :=
  submission "101" "Asha" "Rao" "10000" "asha@example.com" "IN".

Definition bela_submits : HttpRequest :=
  submission "102" "Bela" "Sen" "250" "bela@example.com" "IN".

End Demo.

(** * Properties *)

Section Properties.

Context {float : Type} {fw : @Framework float}.

Local Abbreviation Table := (@table float).
Local Abbreviation State := (gmap string (list string) * gmap string (@pyval float))%type.

(** Membership in the list of fields, and the case analysis over it. *)
Ltac in_fields :=
  unfold Meta_fields, Orders_fields;
  repeat first [ apply list_elem_of_here | apply list_elem_of_further ].

Ltac each_field H :=
  unfold Meta_fields, Orders_fields in H;
  repeat (apply elem_of_cons in H as [->|H]);
  [ .. | by apply elem_of_nil in H ].

(** ** The loop of [_clean_fields] *)

(** What one field contributes to the errors and to the cleaned data. *)
Definition field_errors (d : gmap string string) (f : ModelField)
  : option (list string) :=
  match formfield_clean f (d !! name f) with
  | Clean _ => None
  | ValidationError codes => Some codes
  end.

Definition field_cleaned (d : gmap string string) (f : ModelField)
  : option (@pyval float) :=
  match formfield_clean f (d !! name f) with
  | Clean v => Some v
  | ValidationError _ => None
  end.

(** Whether an integer is within the bounds of an integer column. *)
Definition in_range (z : Z) : bool :=
  match integer_field_range.1 with Some lo => lo <=? z | None => true end
  && match integer_field_range.2 with Some hi => z <=? hi | None => true end.

(** The errors of a key that the form field accepted: those of the range
    of the column, then [unique] if a row has the key. *)
Definition key_errors (db : Table) (z : Z) : list string :=
  model_field_clean Orders_oid (PyInt z)
  ++ (if exists_oid z db then ["unique"] else []).

(** Whether a submission passes, read field by field: each of the six
    fields is accepted by its form field, and the key read from the
    submission is within the range of its column and is not the key of a
    row of the table. *)
Definition accepts (d : gmap string string) (db : Table) : bool :=
  forallb (λ f, bool_decide (field_errors d f = None)) Meta_fields
  && match field_cleaned d Orders_oid with
     | Some (PyInt z) => in_range z && negb (exists_oid z db)
     | _ => true
     end.

(** Requests served one after the other, each on the table that the one
    before it left: the table after the last. *)
Definition serve_all (requests : list (string * HttpRequest)) (db : Table)
  : Table :=
  foldl (λ db pr, (get_response pr.1 pr.2 db).2) db requests.

(** A text fits its column: it is not empty, not longer than the
    column's [max_length], and has no null character. *)
Definition fits (f : ModelField) (x : string) : bool :=
  negb (bool_decide (x = ""))
  && match max_length f with
     | Some n => (String.length x <=? n)%nat
     | None => true
     end
  && negb (Str.contains "000"%char x).

(** A row whose texts fit their columns and whose mail is an address. *)
Definition row_ok (r : @Orders float) : bool :=
  fits Orders_fname (fname r) && fits Orders_lname (lname r)
  && fits Orders_mail (mail r) && validate_email (mail r)
  && fits Orders_addr (addr r).

Lemma clean_field_other d (st : State) f n :
  name f ≠ n →
  (clean_field d st f).1 !! n = st.1 !! n ∧
  (clean_field d st f).2 !! n = st.2 !! n.
Proof.
  intros Hn. unfold clean_field, add_error.
  destruct (formfield_clean f (d !! name f)); simpl;
    rewrite ?lookup_insert_ne, ?lookup_delete_ne by done; done.
Qed.

Lemma clean_field_same d (st : State) f :
  st.1 !! name f = None →
  (clean_field d st f).1 !! name f
    = field_errors d f ∧
  (clean_field d st f).2 !! name f
    = field_cleaned d f.
Proof.
  intros Hn. unfold clean_field, add_error, field_errors, field_cleaned.
  destruct (formfield_clean f (d !! name f)); simpl.
  - by rewrite lookup_insert_eq.
  - by rewrite Hn, lookup_insert_eq, lookup_delete_eq.
Qed.

Lemma foldl_clean_field_other d fs : ∀ (st : State) n,
  n ∉ name <$> fs →
  (foldl (clean_field d) st fs).1 !! n
    = st.1 !! n ∧
  (foldl (clean_field d) st fs).2 !! n
    = st.2 !! n.
Proof.
  induction fs as [|f fs IH]; intros st n Hn; [done|].
  rewrite fmap_cons, not_elem_of_cons in Hn. destruct Hn as [Hf Hfs].
  simpl. destruct (IH (clean_field d st f) n Hfs)
    as [-> ->].
  by apply clean_field_other.
Qed.

Lemma foldl_clean_field_elem d fs : ∀ (st : State) f,
  NoDup (name <$> fs) → f ∈ fs → st.1 !! name f = None →
  (foldl (clean_field d) st fs).1 !! name f
    = field_errors d f ∧
  (foldl (clean_field d) st fs).2 !! name f
    = field_cleaned d f.
Proof.
  induction fs as [|g fs IH]; intros st f Hnd Hin Hst.
  - by apply elem_of_nil in Hin.
  - rewrite fmap_cons in Hnd. apply NoDup_cons in Hnd as [Hg Hnd].
    simpl. apply elem_of_cons in Hin as [->|Hin].
    + destruct (foldl_clean_field_other d fs
                  (clean_field d st g)
                  (name g) Hg) as [-> ->].
      by apply clean_field_same.
    + apply IH; [done..|].
      assert (name g ≠ name f) as Hne.
      { intros Heq. apply Hg. rewrite Heq. by apply list_elem_of_fmap_2. }
      destruct (clean_field_other d st g (name f) Hne) as [-> _]. done.
Qed.

Lemma Meta_fields_NoDup : NoDup (name <$> Meta_fields).
Proof. by apply NoDup_ListNoDup; repeat constructor; simpl; intuition discriminate. Qed.

Lemma clean_fields_lookup d f :
  f ∈ Meta_fields →
  (_clean_fields d).1 !! name f = field_errors d f ∧
  (_clean_fields d).2 !! name f = field_cleaned d f.
Proof.
  intros Hf. unfold _clean_fields.
  apply foldl_clean_field_elem; [apply Meta_fields_NoDup|done|done].
Qed.

Lemma clean_fields_errors_empty d :
  (∀ f, f ∈ Meta_fields → field_errors d f = None) → (_clean_fields d).1 = ∅.
Proof.
  intros Hall. apply map_eq. intros n. rewrite lookup_empty.
  destruct (decide (n ∈ name <$> Meta_fields)) as [Hin|Hout].
  - apply list_elem_of_fmap in Hin as (f & -> & Hf).
    destruct (clean_fields_lookup d f Hf) as [-> _]. by apply Hall.
  - unfold _clean_fields.
    by destruct (foldl_clean_field_other d Meta_fields (∅, ∅) n Hout) as [-> _].
Qed.

(** ** What the form fields hand on *)

(** What a text field hands on is the submitted text without the
    whitespace around it. *)
Lemma clean_text_shape f v x :
  field_class f = CharField ∨ field_class f = EmailField →
  blank f = false →
  formfield_clean f v = Clean x →
  ∃ s, v = Some s ∧ x = PyStr (Str.strip s).
Proof.
  intros Hcls Hblank. unfold formfield_clean. rewrite Hblank. simpl.
  assert (∀ y : cleaned (@pyval float),
            (if bool_decide (CharField_to_python v = "")
             then ValidationError ["required"]
             else match run_validators (validators f)
                          (CharField_to_python v) with
                  | [] => Clean (PyStr (CharField_to_python v))
                  | c :: cs => ValidationError (c :: cs)
                  end) = y →
            y = Clean x → ∃ s, v = Some s ∧ x = PyStr (Str.strip s)) as Hgen.
  { intros y <-. case_bool_decide as Hv; [done|].
    destruct (run_validators _ _); [|done].
    intros [= <-]. destruct v as [s|]; [by exists s|done]. }
  destruct Hcls as [-> | ->]; intros H; by eapply Hgen.
Qed.

Lemma clean_int_shape v x :
  formfield_clean Orders_oid v = Clean x →
  ∃ s z, v = Some s ∧ to_int s = Some z ∧ x = PyInt z.
Proof.
  unfold formfield_clean. simpl. destruct v as [s|]; [|done].
  case_bool_decide; [done|].
  destruct (to_int s) as [z|] eqn:Hz; [|done].
  intros [= <-]. by exists s, z.
Qed.

Lemma clean_float_shape v x :
  formfield_clean Orders_price v = Clean x →
  ∃ s p, v = Some s ∧ to_float s = Some p ∧ x = PyFloat p.
Proof.
  unfold formfield_clean. simpl. destruct v as [s|]; [|done].
  case_bool_decide; [done|].
  destruct (to_float s) as [p|] eqn:Hp; [|done].
  intros [= <-]. by exists s, p.
Qed.

(** A text that the form field accepted is a text that is not empty and
    that all the validators of the form field accept. *)
Lemma clean_text_validated f v x :
  field_class f = CharField ∨ field_class f = EmailField →
  blank f = false →
  formfield_clean f v = Clean x →
  ∃ s, x = PyStr s ∧ s ≠ "" ∧ run_validators (validators f) s = [].
Proof.
  intros Hcls Hblank. unfold formfield_clean. rewrite Hblank. simpl.
  assert (∀ y : cleaned (@pyval float),
            (if bool_decide (CharField_to_python v = "")
             then ValidationError ["required"]
             else match run_validators (validators f)
                          (CharField_to_python v) with
                  | [] => Clean (PyStr (CharField_to_python v))
                  | c :: cs => ValidationError (c :: cs)
                  end) = y →
            y = Clean x →
            ∃ s, x = PyStr s ∧ s ≠ ""
                 ∧ run_validators (validators f) s = []) as Hgen.
  { intros y <-. case_bool_decide as Hv; [done|].
    destruct (run_validators _ _) eqn:Hrun; [|done].
    intros [= <-]. by eexists. }
  destruct Hcls as [-> | ->]; intros H; by eapply Hgen.
Qed.

(** ** The model fields and the unique check *)

(** The model fields accept what the form fields of the text and price
    columns accepted: their validators are among those of the form
    fields. *)
Lemma model_accepts_text f v x :
  field_class f = CharField ∨ field_class f = EmailField →
  blank f = false →
  formfield_clean f v = Clean x →
  model_field_clean f x = [].
Proof.
  intros Hcls Hblank Hx.
  destruct (clean_text_validated f v x Hcls Hblank Hx) as (s & -> & Hs & Hrun).
  unfold model_field_clean. rewrite bool_decide_eq_false_2 by done.
  unfold run_validators, validators, model_validators in *.
  rewrite !omap_app in Hrun. rewrite omap_app.
  apply app_nil in Hrun as [-> Hrun]. by apply app_nil in Hrun as [-> _].
Qed.

Lemma model_accepts_cleaned f v x :
  f ∈ Meta_fields → name f ≠ "oid" →
  formfield_clean f v = Clean x →
  model_field_clean f x = [].
Proof.
  intros Hf Hn Hx. each_field Hf; try done.
  - by apply (model_accepts_text _ v); [left| |].
  - by apply (model_accepts_text _ v); [left| |].
  - by apply clean_float_shape in Hx as (s & p & _ & _ & ->).
  - by apply (model_accepts_text _ v); [right| |].
  - by apply (model_accepts_text _ v); [left| |].
Qed.

Lemma instance_clean_field_skip exclude inst (st : State) f :
  (∀ x, inst !! name f = Some x → model_field_clean f x = []) →
  instance_clean_field exclude inst st f = st.
Proof.
  intros H. unfold instance_clean_field.
  destruct (decide _); [done|].
  destruct (inst !! name f) as [x|]; [|done]. by rewrite (H x).
Qed.

(** Of the instance of a cleaned form, only the key can fail the model
    fields. *)
Lemma instance_full_clean_key d :
  instance_full_clean (dom (_clean_fields d).1) (_clean_fields d).2
    (_clean_fields d)
  = instance_clean_field (dom (_clean_fields d).1) (_clean_fields d).2
      (_clean_fields d) Orders_oid.
Proof.
  assert (∀ f, f ∈ Meta_fields → name f ≠ "oid" →
            ∀ x, (_clean_fields d).2 !! name f = Some x →
                 model_field_clean f x = []) as Hskip.
  { intros f Hf Hn x Hx.
    destruct (clean_fields_lookup d f Hf) as [_ Hc]. rewrite Hc in Hx.
    unfold field_cleaned in Hx.
    destruct (formfield_clean f (d !! name f)) as [y|] eqn:Hy; [|done].
    injection Hx as ->. by apply (model_accepts_cleaned f (d !! name f)). }
  unfold instance_full_clean, Orders_fields. simpl foldl.
  rewrite (instance_clean_field_skip _ _ _ Orders_addr)
    by (apply Hskip; [in_fields|done]).
  rewrite (instance_clean_field_skip _ _ _ Orders_mail)
    by (apply Hskip; [in_fields|done]).
  rewrite (instance_clean_field_skip _ _ _ Orders_price)
    by (apply Hskip; [in_fields|done]).
  rewrite (instance_clean_field_skip _ _ _ Orders_lname)
    by (apply Hskip; [in_fields|done]).
  rewrite (instance_clean_field_skip _ _ _ Orders_fname)
    by (apply Hskip; [in_fields|done]).
  done.
Qed.

Lemma add_error_nonempty n codes (st : State) : (add_error n codes st).1 ≠ ∅.
Proof. unfold add_error. simpl. apply insert_non_empty. Qed.

Lemma add_error_twice k c1 c2 (st : State) :
  st.1 !! k = None →
  add_error k c2 (add_error k c1 st) = add_error k (c1 ++ c2) st.
Proof.
  intros Hk. unfold add_error. simpl.
  rewrite lookup_insert_eq, Hk. simpl.
  by rewrite insert_insert_eq, delete_delete_eq.
Qed.

(** The key of a submission was refused by its form field, or it was
    read as an integer. *)
Lemma key_cases d :
  (∃ codes, field_errors d Orders_oid = Some codes
            ∧ field_cleaned d Orders_oid = None)
  ∨ (∃ z, field_errors d Orders_oid = None
          ∧ field_cleaned d Orders_oid = Some (PyInt z)).
Proof.
  unfold field_errors, field_cleaned.
  destruct (formfield_clean Orders_oid (d !! name Orders_oid)) as [x|codes]
    eqn:Hx.
  - right. apply clean_int_shape in Hx as (s & z & _ & _ & ->). by exists z.
  - left. by exists codes.
Qed.

(** [_post_clean] leaves the form as it is when the key was refused by
    its form field. *)
Lemma post_clean_refused_key (db : Table) d codes :
  field_errors d Orders_oid = Some codes →
  _post_clean db (_clean_fields d) = _clean_fields d.
Proof.
  intros Hc.
  destruct (clean_fields_lookup d Orders_oid) as [He _]; [in_fields|].
  simpl name in He. rewrite Hc in He.
  assert ("oid" ∈ (dom (_clean_fields d).1 : gset string)) as Hin.
  { apply elem_of_dom. by eexists. }
  unfold _post_clean. cbv zeta. rewrite instance_full_clean_key.
  unfold validate_unique, instance_clean_field. simpl name.
  by rewrite !decide_True.
Qed.

(** When the key was read as an integer, [_post_clean] adds the errors
    of the key, if it has any. *)
Lemma post_clean_read_key (db : Table) d z :
  field_cleaned d Orders_oid = Some (PyInt z) →
  _post_clean db (_clean_fields d)
  = match key_errors db z with
    | [] => _clean_fields d
    | codes => add_error "oid" codes (_clean_fields d)
    end.
Proof.
  intros Hz.
  assert (field_errors d Orders_oid = None) as Hnone.
  { destruct (key_cases d) as [(c & _ & Hc)|(z' & Hn & _)]; [congruence|done]. }
  destruct (clean_fields_lookup d Orders_oid) as [He Hc]; [in_fields|].
  simpl name in He, Hc. rewrite Hnone in He. rewrite Hz in Hc.
  assert ("oid" ∉ (dom (_clean_fields d).1 : gset string)) as Hout.
  { by apply not_elem_of_dom. }
  unfold _post_clean. cbv zeta. rewrite instance_full_clean_key.
  unfold validate_unique, instance_clean_field, key_errors. simpl name.
  rewrite !decide_False, Hc by done.
  destruct (model_field_clean Orders_oid (PyInt z)) as [|c cs];
    destruct (exists_oid z db); simpl; try done.
  - by rewrite add_error_twice.
  - by rewrite app_nil_r.
Qed.

(** The errors that the form fields found stay. *)
Lemma post_clean_keeps (db : Table) d n codes :
  (_clean_fields d).1 !! n = Some codes →
  (_post_clean db (_clean_fields d)).1 !! n = Some codes.
Proof.
  intros Hn.
  destruct (key_cases d) as [(c & Hc & _)|(z & Hnone & Hz)].
  - by rewrite (post_clean_refused_key db d c).
  - rewrite (post_clean_read_key db d z Hz).
    destruct (key_errors db z); [done|].
    unfold add_error. simpl. rewrite lookup_insert_ne; [done|].
    intros <-. destruct (clean_fields_lookup d Orders_oid) as [He _];
      [in_fields|]. simpl name in He. congruence.
Qed.

(** A form without errors was cleaned without errors, and its key has no
    error of its own. *)
Lemma post_clean_empty (db : Table) d :
  (_post_clean db (_clean_fields d)).1 = ∅ →
  _post_clean db (_clean_fields d) = _clean_fields d
  ∧ ∀ z, field_cleaned d Orders_oid = Some (PyInt z) → key_errors db z = [].
Proof.
  intros He.
  destruct (key_cases d) as [(c & Hc & Hn)|(z & Hnone & Hz)].
  - split; [by apply (post_clean_refused_key db d c)|]. congruence.
  - rewrite (post_clean_read_key db d z Hz) in *.
    destruct (key_errors db z) eqn:Hk.
    + split; [done|]. intros z' Hz'. congruence.
    + by apply add_error_nonempty in He.
Qed.

Lemma in_range_spec z :
  model_field_clean Orders_oid (PyInt z) = [] ↔ in_range z = true.
Proof.
  unfold model_field_clean, in_range, IntegerField_validators,
    MinValueValidator, MaxValueValidator. simpl.
  destruct integer_field_range as [[lo|] [hi|]]; simpl;
    try destruct (z <? lo) eqn:Hlo; try destruct (hi <? z) eqn:Hhi; simpl;
    try apply Z.ltb_lt in Hlo; try apply Z.ltb_ge in Hlo;
    try apply Z.ltb_lt in Hhi; try apply Z.ltb_ge in Hhi;
    rewrite ?andb_true_iff, ?Z.leb_le; split; intros; try done; try lia.
Qed.

Lemma key_errors_nil (db : Table) z :
  key_errors db z = [] ↔ in_range z = true ∧ exists_oid z db = false.
Proof.
  unfold key_errors. rewrite <- in_range_spec.
  destruct (exists_oid z db); split.
  - intros [_ H]%app_nil. done.
  - intros [_ H]. done.
  - intros [H _]%app_nil. done.
  - intros [-> _]. done.
Qed.
(** ** [Model.save] *)

Lemma do_update_absent z (v : Orders) (db : Table) :
  exists_oid z db = false →
  (λ r, if bool_decide (oid r = z) then v else r) <$> db = db.
Proof.
  unfold exists_oid. induction db as [|r db IH]; simpl; [done|].
  intros [Hr Hdb]%orb_false_iff. rewrite Hr. f_equal. by apply IH.
Qed.

Lemma do_update_keeps_others z (v : Orders) (db : Table) r :
  r ∈ db → oid r ≠ z →
  r ∈ (λ r, if bool_decide (oid r = z) then v else r) <$> db.
Proof.
  intros Hr Hz. apply list_elem_of_fmap. exists r. split; [|done].
  by rewrite bool_decide_eq_false_2.
Qed.

Lemma Model_save_absent (r : Orders) (db : Table) :
  exists_oid (oid r) db = false → Model_save r db = (Ok (), db ++ [r]).
Proof.
  intros Hdb. unfold Model_save, _do_update, _do_insert.
  rewrite Hdb, do_update_absent by done. by rewrite Hdb.
Qed.

(** Saving an instance whose key is in the table overwrites the rows of
    that key: it is the unique check of the form, not [save], that keeps
    the stored records as they are. *)
Lemma Model_save_present (r : Orders) (db : Table) :
  exists_oid (oid r) db = true →
  Model_save r db
  = (Ok (), (λ x, if bool_decide (oid x = oid r) then r else x) <$> db).
Proof. intros Hdb. unfold Model_save, _do_update. by rewrite Hdb. Qed.

(** [Model.save] never reaches the constraint of the table: the INSERT
    runs only when the UPDATE matched no row. *)
Lemma Model_save_returns (r : Orders) (db : Table) :
  (Model_save r db).1 = Ok ().
Proof.
  unfold Model_save, _do_update, _do_insert.
  destruct (exists_oid (oid r) db) eqn:Hdb; [done|].
  rewrite do_update_absent by done. by rewrite Hdb.
Qed.

Lemma exists_oid_true z (db : Table) :
  exists_oid z db = true ↔ ∃ r, r ∈ db ∧ oid r = z.
Proof.
  unfold exists_oid. rewrite existsb_exists. split.
  - intros (r & Hr & Hz). exists r. split; [by apply list_elem_of_In|].
    by apply bool_decide_eq_true in Hz.
  - intros (r & Hr & Hz). exists r. split; [by apply list_elem_of_In|].
    by apply bool_decide_eq_true.
Qed.

Lemma exists_oid_false z (db : Table) :
  exists_oid z db = false ↔ ∀ r, r ∈ db → oid r ≠ z.
Proof.
  split.
  - intros Hf r Hr Hz.
    assert (exists_oid z db = true) by (apply exists_oid_true; eauto).
    congruence.
  - intros Hall. destruct (exists_oid z db) eqn:He; [|done].
    apply exists_oid_true in He as (r & Hr & Hz). by destruct (Hall r Hr).
Qed.

(** ** The creation view *)

(** The form as the view holds it once [is_valid] has run. *)
Lemma is_valid_bound (db : Table) d :
  is_valid db (OrderForm__init__ (Some d))
  = (bool_decide ((_post_clean db (_clean_fields d)).1 = ∅),
     {| is_bound := true; data := d;
        _errors := Some (_post_clean db (_clean_fields d)).1;
        cleaned_data := (_post_clean db (_clean_fields d)).2 |}).
Proof. reflexivity. Qed.

Lemma orderFormView_invalid request (db : Table) :
  method request = "POST" →
  (_post_clean db (_clean_fields (POST request))).1 ≠ ∅ →
  orderFormView request db
  = (Ok (render request "crudapp/order.html"
           {[ "form" := CtxForm
                {| is_bound := true; data := POST request;
                   _errors := Some (_post_clean db (_clean_fields (POST request))).1;
                   cleaned_data := (_post_clean db (_clean_fields (POST request))).2 |} ]}),
     db).
Proof.
  intros Hm He. unfold orderFormView.
  rewrite bool_decide_eq_true_2 by done.
  rewrite is_valid_bound, bool_decide_eq_false_2 by done. reflexivity.
Qed.

(** A field that fails its cleaning sends the form back: the response is
    the form page, the form keeps the submitted data and carries the
    field's errors, and the table is as it was. *)
Lemma field_error_rerenders request (db : Table) f codes :
  method request = "POST" → f ∈ Meta_fields →
  field_errors (POST request) f = Some codes →
  ∃ response form,
    orderFormView request db = (Ok response, db)
    ∧ response = render request "crudapp/order.html"
                   {[ "form" := CtxForm form ]}
    ∧ context_form response = Some form
    ∧ is_bound form = true
    ∧ data form = POST request
    ∧ (errors db form).1 !! name f = Some codes.
Proof.
  intros Hm Hf Hc.
  assert ((_post_clean db (_clean_fields (POST request))).1 !! name f
          = Some codes) as Hpost.
  { apply post_clean_keeps.
    destruct (clean_fields_lookup (POST request) f Hf) as [-> _]. done. }
  eexists _, _. split.
  { apply orderFormView_invalid; [done|].
    intros He. rewrite He, lookup_empty in Hpost. done. }
  repeat split; done.
Qed.

Lemma orderFormView_not_POST request (db : Table) :
  method request ≠ "POST" →
  orderFormView request db
  = (Ok (render request "crudapp/order.html"
           {[ "form" := CtxForm (OrderForm__init__ None) ]}), db).
Proof.
  intros Hm. unfold orderFormView. by rewrite bool_decide_eq_false_2.
Qed.

(** Every form field is required: an empty value is refused as such. *)
Lemma empty_value_required d f :
  f ∈ Meta_fields → in_empty_values (d !! name f) = true →
  field_errors d f = Some ["required"].
Proof.
  intros Hf Hv. unfold field_errors.
  destruct (d !! name f) as [s|].
  - apply bool_decide_eq_true in Hv as ->. each_field Hf; reflexivity.
  - each_field Hf; reflexivity.
Qed.

(** C3. A submission without a mail value is answered by the form page
    again: the page holds the form, the form carries the required-field
    error for mail, the table is unchanged, and the response has the
    status of the response to a GET of the form and is no redirect. *)
Theorem missing_mail_rerenders request (db : Table) :
  method request = "POST" →
  in_empty_values (POST request !! "mail") = true →
  ∃ response form,
    orderFormView request db = (Ok response, db)
    ∧ response = render request "crudapp/order.html"
                   {[ "form" := CtxForm form ]}
    ∧ context_form response = Some form
    ∧ data form = POST request
    ∧ (errors db form).1 !! "mail" = Some ["required"]
    ∧ location response = None
    ∧ ∀ request0, method request0 = "GET" →
        ∃ response0, orderFormView request0 db = (Ok response0, db)
                     ∧ status_code response = status_code response0.
Proof.
  intros Hm Hv.
  destruct (field_error_rerenders request db Orders_mail ["required"] Hm)
    as (response & form & Hview & Hr & Hctx & _ & Hd & He).
  { in_fields. }
  { apply empty_value_required; [in_fields|done]. }
  exists response, form. repeat split; try done.
  - by rewrite Hr.
  - intros request0 Hget. eexists. split.
    + apply orderFormView_not_POST. by rewrite Hget.
    + by rewrite Hr.
Qed.

(** C9. No model field allows a blank value, so each of the six form
    fields is required: a submission that leaves any of them out is
    answered by the form page carrying the required-field error of that
    field, and the table is unchanged. *)
Theorem every_field_required request (db : Table) f :
  f ∈ Orders_fields →
  method request = "POST" →
  in_empty_values (POST request !! name f) = true →
  blank f = false
  ∧ ∃ response form,
      orderFormView request db = (Ok response, db)
      ∧ response = render request "crudapp/order.html"
                     {[ "form" := CtxForm form ]}
      ∧ context_form response = Some form
      ∧ data form = POST request
      ∧ (errors db form).1 !! name f = Some ["required"].
Proof.
  intros Hf Hm Hv. split.
  { each_field Hf; reflexivity. }
  destruct (field_error_rerenders request db f ["required"] Hm Hf)
    as (response & form & Hview & Hr & Hctx & _ & Hd & He).
  { by apply empty_value_required. }
  by exists response, form.
Qed.

(** C7. A GET of the creation route is answered with status 200 by the
    form page, which holds an unbound form: each of the six fields shows
    an empty value, the form has no errors, and the table is unchanged. *)
Theorem get_renders_unbound_form request (db : Table) :
  method request = "GET" →
  ∃ response form,
    get_response "ofv" request db = (Ok response, db)
    ∧ status_code response = 200%nat
    ∧ response = render request "crudapp/order.html"
                   {[ "form" := CtxForm form ]}
    ∧ context_form response = Some form
    ∧ is_bound form = false
    ∧ (errors db form).1 = ∅
    ∧ ∀ f, f ∈ Orders_fields → in_empty_values (value form f) = true.
Proof.
  intros Hm. exists (render request "crudapp/order.html"
                       {[ "form" := CtxForm (OrderForm__init__ None) ]}),
    (OrderForm__init__ None).
  split.
  { unfold get_response. simpl. apply orderFormView_not_POST. by rewrite Hm. }
  repeat split; done.
Qed.

(** C4, as amended. When the submitted mail, with the whitespace around
    it removed, is not empty and is not a valid address, the form page
    comes back holding the form, which carries a format error
    ([invalid]) for mail, and the table is unchanged. *)
Theorem invalid_mail_rejected request (db : Table) s :
  method request = "POST" →
  POST request !! "mail" = Some s →
  Str.strip s ≠ "" →
  validate_email (Str.strip s) = false →
  ∃ response form codes,
    orderFormView request db = (Ok response, db)
    ∧ response = render request "crudapp/order.html"
                   {[ "form" := CtxForm form ]}
    ∧ context_form response = Some form
    ∧ data form = POST request
    ∧ (errors db form).1 !! "mail" = Some codes
    ∧ "invalid" ∈ codes.
Proof.
  intros Hm Hs Hne Hbad.
  destruct (field_error_rerenders request db Orders_mail
              (run_validators (validators Orders_mail) (Str.strip s)) Hm)
    as (response & form & Hview & Hr & Hctx & _ & Hd & He).
  { in_fields. }
  { unfold field_errors, formfield_clean. simpl. rewrite Hs. simpl.
    rewrite bool_decide_eq_false_2 by done.
    unfold run_validators, validators, EmailValidator. simpl.
    by rewrite Hbad. }
  exists response, form. eexists. repeat split; try done.
  unfold run_validators, validators, EmailValidator. simpl.
  rewrite Hbad. apply elem_of_cons. by left.
Qed.

(** C6, as amended. When fname or lname, with the whitespace around it
    removed, is longer than 20 characters, or addr so trimmed is longer
    than 50, the form page comes back holding the form, which carries a
    length error ([max_length]) for that field, and the table is
    unchanged. *)
Theorem overlong_text_rejected request (db : Table) f limit s :
  (f = Orders_fname ∧ limit = 20%nat) ∨ (f = Orders_lname ∧ limit = 20%nat)
  ∨ (f = Orders_addr ∧ limit = 50%nat) →
  method request = "POST" →
  POST request !! name f = Some s →
  (limit < String.length (Str.strip s))%nat →
  max_length f = Some limit
  ∧ ∃ response form codes,
      orderFormView request db = (Ok response, db)
      ∧ response = render request "crudapp/order.html"
                     {[ "form" := CtxForm form ]}
      ∧ context_form response = Some form
      ∧ data form = POST request
      ∧ (errors db form).1 !! name f = Some codes
      ∧ "max_length" ∈ codes.
Proof.
  intros Hf Hm Hs Hlen.
  assert (Str.strip s ≠ "") as Hne.
  { intros Heq. rewrite Heq in Hlen. simpl in Hlen. lia. }
  assert (max_length f = Some limit ∧ f ∈ Meta_fields
          ∧ field_class f = CharField) as (Hmax & Hin & Hcls).
  { unfold Meta_fields, Orders_fields.
    destruct Hf as [[-> ->]|[[-> ->]|[-> ->]]];
      (split; [done|split; [in_fields|done]]). }
  split; [done|].
  destruct (field_error_rerenders request db f
              (run_validators (validators f) (Str.strip s)) Hm Hin)
    as (response & form & Hview & Hr & Hctx & _ & Hd & He).
  { unfold field_errors, formfield_clean. rewrite Hcls, Hs. simpl.
    rewrite bool_decide_eq_false_2 by done.
    unfold run_validators, validators, MaxLengthValidator.
    rewrite Hcls, Hmax. simpl.
    apply Nat.ltb_lt in Hlen. by rewrite Hlen. }
  exists response, form. eexists. repeat split; try done.
  unfold run_validators, validators, MaxLengthValidator.
  rewrite Hcls, Hmax. simpl.
  apply Nat.ltb_lt in Hlen. rewrite Hlen. apply elem_of_cons. by left.
Qed.

(** C2, as amended. A submission whose oid is the oid of a stored record
    does not fail the request: the unique check of the form refuses it, so
    the view returns the form page (status 200), the page holds the form,
    the form carries the error [unique] for oid, its only error for oid
    when the key is within the range of its column, and the table is
    unchanged. *)
Theorem duplicate_oid_is_form_error request (db : Table) s z :
  method request = "POST" →
  POST request !! "oid" = Some s → s ≠ "" → to_int s = Some z →
  (∃ r, r ∈ db ∧ oid r = z) →
  ∃ response form codes,
    orderFormView request db = (Ok response, db)
    ∧ response = render request "crudapp/order.html"
                   {[ "form" := CtxForm form ]}
    ∧ context_form response = Some form
    ∧ status_code response = 200%nat
    ∧ data form = POST request
    ∧ (errors db form).1 !! "oid" = Some codes
    ∧ "unique" ∈ codes
    ∧ (in_range z = true → codes = ["unique"]).
Proof.
  intros Hm Hs Hne Hz Hdb. apply exists_oid_true in Hdb.
  assert (field_cleaned (POST request) Orders_oid = Some (PyInt z)) as Hc.
  { unfold field_cleaned, formfield_clean. simpl.
    by rewrite Hs, bool_decide_eq_false_2, Hz. }
  assert ((_clean_fields (POST request)).1 !! "oid" = None) as He.
  { destruct (clean_fields_lookup (POST request) Orders_oid) as [He _];
      [in_fields|]. simpl name in He. rewrite He.
    destruct (key_cases (POST request)) as [(c & _ & Hn)|(z' & Hn & _)];
      [congruence|done]. }
  assert (_post_clean db (_clean_fields (POST request))
          = add_error "oid"
              (model_field_clean Orders_oid (PyInt z) ++ ["unique"])
              (_clean_fields (POST request))) as Hpost.
  { rewrite (post_clean_read_key db _ z Hc). unfold key_errors. rewrite Hdb.
    by destruct (model_field_clean Orders_oid (PyInt z)). }
  eexists _, _, (model_field_clean Orders_oid (PyInt z) ++ ["unique"]).
  split.
  { apply orderFormView_invalid; [done|]. rewrite Hpost.
    apply add_error_nonempty. }
  split; [done|]. split; [done|]. split; [done|]. split; [done|]. split.
  { simpl. rewrite Hpost. unfold add_error. simpl.
    by rewrite lookup_insert_eq, He. }
  split.
  - apply elem_of_app. right. apply list_elem_of_here.
  - intros Hr%in_range_spec. by rewrite Hr.
Qed.

(** ** A valid submission *)

Lemma save_valid (db : Table) d cd r :
  construct_instance cd = Some r →
  save {| is_bound := true; data := d; _errors := Some ∅;
          cleaned_data := cd |} db
  = Model_save r db.
Proof. intros Hr. unfold save. simpl. by rewrite Hr. Qed.

(** A form without errors holds a complete instance, made of what the
    form fields handed on, whose key is within the range of its column
    and is not in the table. *)
Lemma valid_form_fields (db : Table) d :
  (_post_clean db (_clean_fields d)).1 = ∅ →
  ∃ r,
    construct_instance (_post_clean db (_clean_fields d)).2 = Some r
    ∧ exists_oid (oid r) db = false
    ∧ in_range (oid r) = true
    ∧ formfield_clean Orders_oid (d !! "oid") = Clean (PyInt (oid r))
    ∧ formfield_clean Orders_fname (d !! "fname") = Clean (PyStr (fname r))
    ∧ formfield_clean Orders_lname (d !! "lname") = Clean (PyStr (lname r))
    ∧ formfield_clean Orders_price (d !! "price") = Clean (PyFloat (price r))
    ∧ formfield_clean Orders_mail (d !! "mail") = Clean (PyStr (mail r))
    ∧ formfield_clean Orders_addr (d !! "addr") = Clean (PyStr (addr r)).
Proof.
  intros He. destruct (post_clean_empty db d He) as [Hpost Hkey].
  pose proof He as He'. rewrite Hpost in He'. rewrite Hpost.
  assert (∀ g, g ∈ Meta_fields →
            ∃ x, formfield_clean g (d !! name g) = Clean x
                 ∧ field_cleaned d g = Some x
                 ∧ (_clean_fields d).2 !! name g = Some x) as Hcd.
  { intros g Hg. destruct (clean_fields_lookup d g Hg) as [H1 H2].
    rewrite He', lookup_empty in H1. rewrite H2.
    unfold field_errors, field_cleaned in *.
    destruct (formfield_clean g (d !! name g)); [by eexists|done]. }
  destruct (Hcd Orders_oid) as (xo & Ho & Fo & Co); [in_fields|].
  destruct (Hcd Orders_fname) as (xf & Hf & _ & Cf); [in_fields|].
  destruct (Hcd Orders_lname) as (xl & Hl & _ & Cl); [in_fields|].
  destruct (Hcd Orders_price) as (xp & Hp & _ & Cp); [in_fields|].
  destruct (Hcd Orders_mail) as (xm & Hma & _ & Cm); [in_fields|].
  destruct (Hcd Orders_addr) as (xa & Ha & _ & Ca); [in_fields|].
  simpl name in *.
  pose proof Ho as Ho'. pose proof Hp as Hp'. pose proof Hf as Hf'.
  pose proof Hl as Hl'. pose proof Hma as Hma'. pose proof Ha as Ha'.
  apply clean_int_shape in Ho' as (so & o & _ & _ & ->).
  apply clean_float_shape in Hp' as (sp & p & _ & _ & ->).
  apply clean_text_shape in Hf' as (sf & _ & ->); [|by left|done].
  apply clean_text_shape in Hl' as (sl & _ & ->); [|by left|done].
  apply clean_text_shape in Hma' as (sm & _ & ->); [|by right|done].
  apply clean_text_shape in Ha' as (sa & _ & ->); [|by left|done].
  apply Hkey, key_errors_nil in Fo as [Hrange Hdb].
  eexists. split.
  { unfold construct_instance. by rewrite Co, Cf, Cl, Cp, Cm, Ca. }
  simpl. repeat split; done.
Qed.

(** What the view does with a form without errors. *)
Lemma orderFormView_valid request (db : Table) r :
  method request = "POST" →
  (_post_clean db (_clean_fields (POST request))).1 = ∅ →
  construct_instance (_post_clean db (_clean_fields (POST request))).2
  = Some r →
  exists_oid (oid r) db = false →
  orderFormView request db = (Ok (HttpResponseRedirect "sv"), db ++ [r]).
Proof.
  intros Hm He Hr Hdb. unfold orderFormView.
  rewrite bool_decide_eq_true_2 by done.
  rewrite is_valid_bound, bool_decide_eq_true_2 by done.
  by rewrite He, (save_valid db _ _ _ Hr), Model_save_absent.
Qed.

(** C1, as amended. A submission whose six fields are all accepted,
    whose oid is within the range of its column and is not in the table,
    is answered by a redirect to the listing route, and the table gains
    one row: the values the form cleaned, that is the numbers read from
    the submitted oid and price, and the submitted fname, lname, mail and
    addr without the whitespace around them. *)
Theorem valid_submission_persisted request (db : Table) o f l p m a :
  method request = "POST" →
  formfield_clean Orders_oid (POST request !! "oid") = Clean (PyInt o) →
  formfield_clean Orders_fname (POST request !! "fname") = Clean (PyStr f) →
  formfield_clean Orders_lname (POST request !! "lname") = Clean (PyStr l) →
  formfield_clean Orders_price (POST request !! "price") = Clean (PyFloat p) →
  formfield_clean Orders_mail (POST request !! "mail") = Clean (PyStr m) →
  formfield_clean Orders_addr (POST request !! "addr") = Clean (PyStr a) →
  in_range o = true →
  (∀ r, r ∈ db → oid r ≠ o) →
  orderFormView request db
  = (Ok (HttpResponseRedirect "sv"),
     db ++ [ {| oid := o; fname := f; lname := l;
                price := p; mail := m; addr := a |} ])
  ∧ resolve "sv" = Some (path "sv" views_showView "show_url")
  ∧ ∃ so sf sl sp sm sa,
      POST request !! "oid" = Some so ∧ to_int so = Some o
      ∧ POST request !! "fname" = Some sf ∧ f = Str.strip sf
      ∧ POST request !! "lname" = Some sl ∧ l = Str.strip sl
      ∧ POST request !! "price" = Some sp ∧ to_float sp = Some p
      ∧ POST request !! "mail" = Some sm ∧ m = Str.strip sm
      ∧ POST request !! "addr" = Some sa ∧ a = Str.strip sa.
Proof.
  intros Hm Ho Hf Hl Hp Hma Ha Hrange Hfresh. split; [|split; [done|]].
  - set (d := POST request) in *.
    assert (∀ g, g ∈ Meta_fields →
              (_clean_fields d).2 !! name g = field_cleaned d g) as Hcd.
    { intros g Hg. by destruct (clean_fields_lookup d g Hg). }
    pose proof (Hcd Orders_oid) as Co. pose proof (Hcd Orders_fname) as Cf.
    pose proof (Hcd Orders_lname) as Cl. pose proof (Hcd Orders_price) as Cp.
    pose proof (Hcd Orders_mail) as Cm. pose proof (Hcd Orders_addr) as Ca.
    unfold field_cleaned in Co, Cf, Cl, Cp, Cm, Ca.
    simpl name in Co, Cf, Cl, Cp, Cm, Ca.
    rewrite Ho in Co. rewrite Hf in Cf. rewrite Hl in Cl.
    rewrite Hp in Cp. rewrite Hma in Cm. rewrite Ha in Ca.
    assert (construct_instance (_clean_fields d).2
            = Some {| oid := o; fname := f; lname := l;
                      price := p; mail := m; addr := a |}) as Hinst.
    { unfold construct_instance.
      rewrite Co, Cf, Cl, Cp, Cm, Ca by in_fields.
      done. }
    assert (_post_clean db (_clean_fields d) = _clean_fields d) as Hpost.
    { rewrite (post_clean_read_key db d o).
      - assert (key_errors db o = []) as ->; [|done].
        apply key_errors_nil. split; [done|]. by apply exists_oid_false.
      - unfold field_cleaned. simpl name. fold d. by rewrite Ho. }
    apply orderFormView_valid; fold d; rewrite ?Hpost; try done.
    + apply clean_fields_errors_empty. intros g Hg. unfold field_errors.
      each_field Hg; simpl; fold d;
        by rewrite ?Ho, ?Hf, ?Hl, ?Hp, ?Hma, ?Ha.
    + by apply exists_oid_false.
  - apply clean_int_shape in Ho as (so & zo & Hso & Hzo & [= <-]).
    apply clean_float_shape in Hp as (sp & zp & Hsp & Hzp & [= <-]).
    apply clean_text_shape in Hf as (sf & Hsf & [= ->]); [|by left|done].
    apply clean_text_shape in Hl as (sl & Hsl & [= ->]); [|by left|done].
    apply clean_text_shape in Hma as (sm & Hsm & [= ->]); [|by right|done].
    apply clean_text_shape in Ha as (sa & Hsa & [= ->]); [|by left|done].
    exists so, sf, sl, sp, sm, sa. simpl in *. done.
Qed.

(** The creation view never raises: whatever is submitted, it returns a
    response. *)
Lemma orderFormView_returns request (db : Table) :
  ∃ response, (orderFormView request db).1 = Ok response.
Proof.
  destruct (decide (method request = "POST")) as [Hm|Hm].
  - destruct (decide ((_post_clean db (_clean_fields (POST request))).1 = ∅))
      as [He|He].
    + destruct (valid_form_fields db _ He) as (r & Hr & Hdb & _).
      rewrite (orderFormView_valid request db r) by done. by eexists.
    + rewrite orderFormView_invalid by done. by eexists.
  - rewrite orderFormView_not_POST by done. by eexists.
Qed.

(** An accepted text fits its column, and an accepted mail is an
    address. *)
Lemma clean_text_fits f v x :
  field_class f = CharField ∨ field_class f = EmailField →
  blank f = false →
  formfield_clean f v = Clean (PyStr x) →
  fits f x = true ∧ (field_class f = EmailField → validate_email x = true).
Proof.
  intros Hcls Hblank Hx.
  destruct (clean_text_validated f v _ Hcls Hblank Hx)
    as (s & [= <-] & Hs & Hrun).
  revert Hrun.
  unfold run_validators, validators, fits, EmailValidator,
    MaxLengthValidator, ProhibitNullCharactersValidator.
  rewrite (bool_decide_eq_false_2 _ Hs).
  destruct (max_length f) as [n|]; destruct Hcls as [-> | ->]; simpl.
  all: destruct (validate_email x) eqn:Hmail;
    try destruct (n <? String.length x)%nat eqn:Hlen;
    destruct (Str.contains "000"%char x) eqn:Hnul;
    simpl; try done.
  all: intros _; split; [|done].
  all: apply Nat.ltb_ge in Hlen; rewrite andb_true_r; by apply Nat.leb_le.
Qed.

(** Serving a request leaves the table as it was or adds one row, whose
    key is new and whose texts fit their columns. *)
Lemma get_response_adds p request (db : Table) :
  ∃ added,
    (get_response p request db).2 = db ++ added
    ∧ (length added ≤ 1)%nat
    ∧ ∀ r, r ∈ added →
        exists_oid (oid r) db = false ∧ row_ok r = true.
Proof.
  assert (∃ added : Table,
            db = db ++ added ∧ (length added ≤ 1)%nat
            ∧ ∀ r, r ∈ added →
                exists_oid (oid r) db = false ∧ row_ok r = true) as Hsame.
  { exists []. rewrite app_nil_r. split; [done|]. split; [simpl; lia|].
    intros r Hr. by apply elem_of_nil in Hr. }
  unfold get_response.
  destruct (resolve p) as [u|]; [|done].
  destruct (callback u); simpl; [|done].
  destruct (decide (method request = "POST")) as [Hm|Hm].
  - destruct (decide ((_post_clean db (_clean_fields (POST request))).1 = ∅))
      as [He|He].
    + destruct (valid_form_fields db _ He)
        as (r' & Hr' & Hdb & _ & _ & Hf & Hl & _ & Hma & Ha).
      rewrite (orderFormView_valid request db r') by done.
      exists [r']. split; [done|]. split; [done|].
      intros r ->%list_elem_of_singleton. split; [done|].
      apply clean_text_fits in Hf as [Hf _]; [|by left|done].
      apply clean_text_fits in Hl as [Hl _]; [|by left|done].
      apply clean_text_fits in Hma as [Hma Hmail]; [|by right|done].
      apply clean_text_fits in Ha as [Ha _]; [|by left|done].
      unfold row_ok. by rewrite Hf, Hl, Hma, Ha, Hmail.
    + by rewrite orderFormView_invalid.
  - by rewrite orderFormView_not_POST.
Qed.

(** C8. Serving a request never changes or removes a stored record:
    whatever the path, the method and the submitted data, every row of
    the table before the request is in the table after it, with the same
    values; the table after it is the table before it, followed by the
    row that was created, if one was. *)
Theorem handlers_keep_rows p request (db : Table) r :
  r ∈ db →
  r ∈ (get_response p request db).2
  ∧ ∃ added,
      (get_response p request db).2 = db ++ added
      ∧ (length added ≤ 1)%nat.
Proof.
  intros Hr.
  destruct (get_response_adds p request db) as (added & Hdb & Hlen & _).
  split; [|by exists added].
  rewrite Hdb. apply elem_of_app. by left.
Qed.

(** ** The listing view *)

Lemma insert_row_perm (r : @Orders float) rows : insert_row r rows ≡ₚ r :: rows.
Proof.
  induction rows as [|x rows IH]; simpl; [done|].
  destruct (precedes r x); [done|].
  rewrite IH. apply Permutation_swap.
Qed.

(** Whatever the order of the database, the rows of the query are the
    rows of the table. *)
Lemma objects_all_perm (db : Table) : objects_all db ≡ₚ db.
Proof.
  unfold objects_all. induction db as [|r db IH]; simpl; [done|].
  rewrite insert_row_perm. by f_equiv.
Qed.

(** C5. The listing view answers with exactly the rows of the table, and
    leaves the table as it is; after the records with oid 101, 102 and 103
    are saved into an empty table, it lists those three and no other. *)
Theorem showView_lists_table request (db : Table) :
  (∃ response rows,
     showView request db = (Ok response, db)
     ∧ status_code response = 200%nat
     ∧ context_obj response = Some rows
     ∧ rows ≡ₚ db)
  ∧ ∀ r1 r2 r3 : @Orders float,
      oid r1 = 101 → oid r2 = 102 → oid r3 = 103 →
      let db1 := (Model_save r1 []).2 in
      let db2 := (Model_save r2 db1).2 in
      let db3 := (Model_save r3 db2).2 in
      ∃ response rows,
        showView request db3 = (Ok response, db3)
        ∧ context_obj response = Some rows
        ∧ rows ≡ₚ [r1; r2; r3].
Proof.
  split.
  - eexists _, _. repeat split; [done..|]. apply objects_all_perm.
  - intros r1 r2 r3 H1 H2 H3 db1 db2 db3. subst db1 db2 db3.
    rewrite (Model_save_absent r1 []) by done. simpl.
    rewrite (Model_save_absent r2 [r1]).
    2:{ apply exists_oid_false. intros r [->|[]%elem_of_nil]%elem_of_cons. lia. }
    simpl. rewrite (Model_save_absent r3 [r1; r2]).
    2:{ apply exists_oid_false.
        intros r [->|[->|[]%elem_of_nil]%elem_of_cons]%elem_of_cons; lia. }
    eexists _, _. repeat split; [done..|]. apply objects_all_perm.
Qed.

(** C10. The listing route does not look at the method: whatever the
    method of the request, the path sv is served by the listing view,
    which answers with status 200 and a page that holds the rows of the
    table and no other, and leaves the table as it is; the status and the
    rows are the same for every request. *)
Theorem listing_ignores_method request (db : Table) :
  (callback <$> resolve "sv") = Some views_showView
  ∧ ∃ response rows,
      get_response "sv" request db = (Ok response, db)
      ∧ status_code response = 200%nat
      ∧ context_obj response = Some rows
      ∧ rows ≡ₚ db
      ∧ ∀ request', ∃ response',
          get_response "sv" request' db = (Ok response', db)
          ∧ status_code response' = status_code response
          ∧ context_obj response' = context_obj response.
Proof.
  split; [done|].
  eexists _, _. repeat split; [done..|apply objects_all_perm|].
  intros request'. by eexists.
Qed.

(** * Further properties of the views *)

(** The form has no errors exactly when the submission passes field by
    field. *)
Lemma no_errors_iff_accepts (db : Table) d :
  (_post_clean db (_clean_fields d)).1 = ∅ ↔ accepts d db = true.
Proof.
  split.
  - intros He.
    destruct (valid_form_fields db d He)
      as (r & _ & Hdb & Hrange & Ho & Hf & Hl & Hp & Hm & Ha).
    unfold accepts, field_cleaned, field_errors. simpl.
    rewrite Ho, Hf, Hl, Hp, Hm, Ha, Hdb, Hrange. done.
  - intros Hacc. apply andb_prop in Hacc as [Hall Hkey].
    assert ((_clean_fields d).1 = ∅) as He.
    { apply clean_fields_errors_empty. intros f Hf.
      rewrite forallb_forall in Hall.
      eapply bool_decide_eq_true_1, Hall. by apply list_elem_of_In. }
    destruct (key_cases d) as [(c & Hc & _)|(z & _ & Hz)].
    + by rewrite (post_clean_refused_key db d c).
    + rewrite (post_clean_read_key db d z Hz). rewrite Hz in Hkey.
      apply andb_prop in Hkey as [Hrange Hdb].
      apply negb_true_iff in Hdb.
      assert (key_errors db z = []) as ->; [|done].
      by apply key_errors_nil.
Qed.

(** The errors of a field other than the key are those of its form
    field. *)
Lemma post_clean_other (db : Table) d n :
  n ≠ "oid" →
  (_post_clean db (_clean_fields d)).1 !! n = (_clean_fields d).1 !! n.
Proof.
  intros Hn.
  destruct (key_cases d) as [(c & Hc & _)|(z & _ & Hz)].
  - by rewrite (post_clean_refused_key db d c).
  - rewrite (post_clean_read_key db d z Hz).
    destruct (key_errors db z); [done|].
    unfold add_error. simpl. by rewrite lookup_insert_ne.
Qed.

(** The errors of the key: those of its form field, or else those of
    its range and of the unique check. *)
Lemma post_clean_key (db : Table) d :
  (_post_clean db (_clean_fields d)).1 !! "oid"
  = match formfield_clean Orders_oid (d !! "oid") with
    | ValidationError codes => Some codes
    | Clean (PyInt z) =>
        match key_errors db z with [] => None | codes => Some codes end
    | Clean _ => None
    end.
Proof.
  destruct (clean_fields_lookup d Orders_oid) as [He _]; [in_fields|].
  simpl name in He.
  destruct (key_cases d) as [(c & Hc & _)|(z & Hnone & Hz)].
  - rewrite (post_clean_refused_key db d c), He by done.
    unfold field_errors in *. simpl name in *.
    by destruct (formfield_clean Orders_oid (d !! "oid")).
  - rewrite (post_clean_read_key db d z Hz).
    unfold field_cleaned, field_errors in *. simpl name in *.
    destruct (formfield_clean Orders_oid (d !! "oid")) as [x|]; [|done].
    injection Hz as ->.
    destruct (key_errors db z); [by rewrite He|].
    unfold add_error. simpl. by rewrite lookup_insert_eq, He.
Qed.

(** X1. Serving a request fails only on an unknown path: the two routes
    of the application always return a response, whatever the method,
    the submitted data and the table, and every other path raises
    [Http404] and leaves the table as it is. *)
Theorem only_unknown_paths_fail p request (db : Table) :
  (p = "ofv" ∨ p = "sv" →
   ∃ response, (get_response p request db).1 = Ok response)
  ∧ (p ≠ "ofv" → p ≠ "sv" →
     get_response p request db = (Raise Http404, db)).
Proof.
  split.
  - intros [-> | ->].
    + apply orderFormView_returns.
    + by eexists.
  - intros Hofv Hsv. unfold get_response, resolve, urlpatterns. simpl.
    rewrite !decide_False by (simpl; congruence). done.
Qed.


(** X3. The keys stay unique: when no two rows of the table have the
    same oid, no two rows have the same oid after a request is served,
    whatever the request. *)
Theorem keys_stay_unique p request (db : Table) :
  NoDup (oid <$> db) →
  NoDup (oid <$> (get_response p request db).2).
Proof.
  intros Hnd.
  destruct (get_response_adds p request db) as (added & -> & Hlen & Hnew).
  rewrite fmap_app. apply NoDup_app. split; [done|]. split.
  - intros z Hz (r & -> & Hr)%list_elem_of_fmap.
    destruct (Hnew r Hr) as [Hfresh _].
    apply list_elem_of_fmap in Hz as (x & Hx & Hin).
    by apply (proj1 (exists_oid_false _ _) Hfresh x).
  - destruct added as [|r [|r' added]]; simpl in *; [constructor| |lia].
    apply NoDup_singleton.
Qed.

(** X4. Submitting the same accepted order a second time is refused:
    the first submission stores the row, the second is answered by the
    form page, which holds the form, whose only error is [unique] on
    oid, and the table stays as the first submission left it. *)
Theorem resubmission_refused request (db : Table) :
  method request = "POST" →
  accepts (POST request) db = true →
  ∃ r response form,
    orderFormView request db
    = (Ok (HttpResponseRedirect "sv"), db ++ [r])
    ∧ orderFormView request (db ++ [r]) = (Ok response, db ++ [r])
    ∧ response = render request "crudapp/order.html"
                   {[ "form" := CtxForm form ]}
    ∧ status_code response = 200%nat
    ∧ context_form response = Some form
    ∧ (errors (db ++ [r]) form).1 = {[ "oid" := ["unique"] ]}.
Proof.
  intros Hm Hacc. apply no_errors_iff_accepts in Hacc as He.
  destruct (valid_form_fields db _ He) as (r & Hr & Hdb & Hrange & Ho & _).
  destruct (post_clean_empty db _ He) as [Hpost _].
  pose proof He as He0. rewrite Hpost in He.
  assert (field_cleaned (POST request) Orders_oid = Some (PyInt (oid r)))
    as Hc.
  { unfold field_cleaned. simpl name. by rewrite Ho. }
  assert (_post_clean (db ++ [r]) (_clean_fields (POST request))
          = add_error "oid" ["unique"] (_clean_fields (POST request)))
    as Hpost2.
  { rewrite (post_clean_read_key _ _ _ Hc). unfold key_errors.
    apply in_range_spec in Hrange. rewrite Hrange.
    assert (exists_oid (oid r) (db ++ [r]) = true) as ->; [|done].
    apply exists_oid_true. exists r. split; [|done].
    apply elem_of_app. right. apply list_elem_of_here. }
  exists r. eexists _, _. split; [by apply orderFormView_valid|]. split.
  { apply orderFormView_invalid; [done|]. rewrite Hpost2.
    apply add_error_nonempty. }
  split; [done|]. split; [done|]. split; [done|].
  simpl. rewrite Hpost2. unfold add_error. simpl.
  by rewrite He, lookup_empty.
Qed.

(** X5. A created order is listed: when a submission is accepted, the
    location of the redirect is served by the listing view, which
    answers with a page that holds, in the order of the database, the
    rows that were in the table and the new row built from the
    submission, and no other, and leaves the table as it is. *)
Theorem created_order_is_listed request request' (db : Table) :
  method request = "POST" →
  accepts (POST request) db = true →
  ∃ r redirection target response rows,
    get_response "ofv" request db = (Ok redirection, db ++ [r])
    ∧ location redirection = Some target
    ∧ get_response target request' (db ++ [r]) = (Ok response, db ++ [r])
    ∧ status_code response = 200%nat
    ∧ context_obj response = Some rows
    ∧ rows ≡ₚ db ++ [r]
    ∧ construct_instance (_clean_fields (POST request)).2 = Some r.
Proof.
  intros Hm Hacc. apply no_errors_iff_accepts in Hacc as He.
  destruct (valid_form_fields db _ He) as (r & Hr & Hdb & _).
  exists r, (HttpResponseRedirect "sv"), "sv". eexists _, _.
  split; [|split; [done|split; [done|split; [done|split; [done|split]]]]].
  - unfold get_response. simpl. by apply orderFormView_valid.
  - apply objects_all_perm.
  - destruct (post_clean_empty db _ He) as [Hpost _].
    by rewrite Hpost in Hr.
Qed.

(** X6. The names and the routes of [urlpatterns] identify its
    patterns: the name of each pattern reverses to its route, and its
    route resolves to that pattern, so that no pattern hides another. *)
Theorem urlpatterns_round_trip u :
  u ∈ urlpatterns →
  reverse (pattern_name u) = Ok (route u) ∧ resolve (route u) = Some u.
Proof.
  intros Hu. unfold urlpatterns in Hu.
  repeat (apply elem_of_cons in Hu as [->|Hu]); [done..|].
  by apply elem_of_nil in Hu.
Qed.

(** X7. There is no validation across fields: the errors that the form
    reports for a field other than the key depend on the text submitted
    for that field alone, not on the other fields nor on the table; for
    the key oid they depend on its text and on the table. *)
Theorem no_cross_field_validation f d1 d2 (db1 db2 : Table) :
  f ∈ Orders_fields →
  d1 !! name f = d2 !! name f →
  name f ≠ "oid" ∨ db1 = db2 →
  (errors db1 (OrderForm__init__ (Some d1))).1 !! name f
  = (errors db2 (OrderForm__init__ (Some d2))).1 !! name f.
Proof.
  intros Hf Hd Hkey.
  change ((_post_clean db1 (_clean_fields d1)).1 !! name f
          = (_post_clean db2 (_clean_fields d2)).1 !! name f).
  destruct (decide (name f = "oid")) as [Hn|Hn].
  - destruct Hkey as [Hne | ->]; [done|].
    rewrite Hn in *. by rewrite !post_clean_key, Hd.
  - rewrite !post_clean_other by done.
    destruct (clean_fields_lookup d1 f Hf) as [-> _].
    destruct (clean_fields_lookup d2 f Hf) as [-> _].
    unfold field_errors. by rewrite Hd.
Qed.

(** X8. What the form stores fits the columns: when every row of the
    table has texts that are not empty, are within the [max_length] of
    their columns and have no null character, and a mail that is an
    address, so has every row of the table after a request is served. *)
Theorem stored_rows_fit_columns p request (db : Table) :
  (∀ r, r ∈ db → row_ok r = true) →
  ∀ r, r ∈ (get_response p request db).2 → row_ok r = true.
Proof.
  intros Hdb r.
  destruct (get_response_adds p request db) as (added & -> & _ & Hnew).
  intros [Hr|Hr]%elem_of_app; [by apply Hdb|by apply Hnew].
Qed.

Lemma serve_all_sound requests : ∀ db : Table,
  NoDup (oid <$> db) → (∀ r, r ∈ db → row_ok r = true) →
  NoDup (oid <$> serve_all requests db)
  ∧ (∀ r, r ∈ serve_all requests db → row_ok r = true)
  ∧ (length (serve_all requests db) ≤ length db + length requests)%nat.
Proof.
  induction requests as [|[p request] requests IH]; intros db Hnd Hok.
  { simpl. split; [done|]. split; [done|lia]. }
  simpl.
  destruct (get_response_adds p request db) as (added & Hdb & Hlen & Hnew).
  destruct (IH (get_response p request db).2) as (IH1 & IH2 & IH3).
  - rewrite Hdb, fmap_app. apply NoDup_app. split; [done|]. split.
    + intros z Hz (r & -> & Hr)%list_elem_of_fmap.
      destruct (Hnew r Hr) as [Hfresh _].
      apply list_elem_of_fmap in Hz as (x & Hx & Hin).
      by apply (proj1 (exists_oid_false _ _) Hfresh x).
    + destruct added as [|r [|r' added]]; simpl in *; [constructor| |lia].
      apply NoDup_singleton.
  - rewrite Hdb. intros r [Hr|Hr]%elem_of_app; [by apply Hok|by apply Hnew].
  - split; [done|]. split; [done|].
    assert (length (get_response p request db).2 ≤ length db + 1)%nat
      as Hone.
    { rewrite Hdb, length_app. lia. }
    simpl length. lia.
Qed.

(** X9. Whatever requests are served, one after the other, starting from
    the empty table, the table they leave has no two rows with the same
    oid, holds only rows whose texts fit their columns and whose mail is
    an address, and has at most one row for each request. *)
Theorem served_tables_are_sound requests :
  NoDup (oid <$> serve_all requests [])
  ∧ (∀ r, r ∈ serve_all requests [] → row_ok r = true)
  ∧ (length (serve_all requests []) ≤ length requests)%nat.
Proof.
  destruct (serve_all_sound requests []) as (H1 & H2 & H3).
  - constructor.
  - intros r Hr. by apply elem_of_nil in Hr.
  - done.
Qed.

End Properties.

(** * The views run on examples *)

Section Examples.

Import Demo.

(** C1: a first order is stored as submitted and the client is sent to
    the listing. *)
Lemma valid_submission_persisted_witness :
  in_range (fw := framework) 101 = true
  ∧ (∀ r, r ∈ ([] : @table Demo.float) → oid r ≠ 101)
  ∧ Demo.orderFormView asha_submits [] = (Ok (HttpResponseRedirect "sv"), [asha]).
Proof.
  split; [reflexivity|]. split.
  - intros r Hr. by apply elem_of_nil in Hr.
  - apply (valid_submission_persisted (fw := framework)
             asha_submits [] 101 "Asha" "Rao" 10000 "asha@example.com" "IN");
      try (vm_compute; reflexivity).
    intros r Hr. by apply elem_of_nil in Hr.
Defined.

(** C1, as written: the stored values are not always the submitted ones.
    Every field of this submission is accepted and its oid is new, yet the
    stored fname is not the submitted text: the space before it is gone. *)
Lemma padded_fname_not_stored_verbatim :
  let request :=
    submission "101" " Asha" "Rao" "10000" "asha@example.com" "IN" in
  (∀ f, f ∈ Orders_fields →
     field_errors (fw := framework) (POST request) f = None)
  ∧ POST request !! "fname" = Some " Asha"
  ∧ Demo.orderFormView request [] = (Ok (HttpResponseRedirect "sv"), [asha])
  ∧ fname asha ≠ " Asha".
Proof.
  repeat split; try done.
  intros f Hf. unfold Orders_fields in Hf.
  repeat (apply elem_of_cons in Hf as [->|Hf]); try (vm_compute; reflexivity).
  by apply elem_of_nil in Hf.
Qed.

(** C2: an oid that is taken is refused by the form. *)
Lemma duplicate_oid_is_form_error_witness :
  (∃ r, r ∈ [asha] ∧ oid r = 101)
  ∧ ∃ response form,
      Demo.orderFormView asha_submits [asha] = (Ok response, [asha])
      ∧ context_form response = Some form
      ∧ status_code response = 200%nat
      ∧ form_errors [asha] form !! "oid" = Some ["unique"].
Proof.
  assert (∃ r, r ∈ [asha] ∧ oid r = 101) as Hdup.
  { exists asha. split; [apply list_elem_of_here|reflexivity]. }
  split; [exact Hdup|].
  destruct (duplicate_oid_is_form_error (fw := framework)
              asha_submits [asha] "101" 101)
    as (response & form & codes & Hview & _ & Hctx & Hstatus & _ & He & _
        & Hcodes); try done.
  exists response, form. split; [exact Hview|]. split; [exact Hctx|].
  split; [exact Hstatus|].
  unfold form_errors. rewrite He, (Hcodes eq_refl). reflexivity.
Defined.

(** C2, as written: submitting the oid of a stored record does not fail
    the request.  The view returns, with the form page; the duplicate is
    reported as an error of the field oid, next to the form. *)
Lemma duplicate_oid_not_a_failure :
  (∃ r, r ∈ [asha] ∧ Some (oid r) = read_int "101")
  ∧ POST asha_submits !! "oid" = Some "101"
  ∧ (¬ ∃ e, (Demo.orderFormView asha_submits [asha]).1 = Raise e)
  ∧ ∃ response form,
      Demo.orderFormView asha_submits [asha] = (Ok response, [asha])
      ∧ status_code response = 200%nat
      ∧ context_form response = Some form
      ∧ form_errors [asha] form !! "oid" = Some ["unique"].
Proof.
  split; [|split; [|split]].
  - exists asha. split; [apply list_elem_of_here|reflexivity].
  - reflexivity.
  - intros [e He]. vm_compute in He. discriminate He.
  - eexists _, _. split; [vm_compute; reflexivity|].
    split; [reflexivity|]. split; [reflexivity|]. vm_compute. reflexivity.
Qed.

(** C3: the submission without mail. *)
Lemma missing_mail_rerenders_witness :
  in_empty_values (POST (without "mail" asha_submits) !! "mail") = true
  ∧ ∃ response form,
      Demo.orderFormView (without "mail" asha_submits) [bela]
      = (Ok response, [bela])
      ∧ context_form response = Some form
      ∧ form_errors [bela] form !! "mail" = Some ["required"]
      ∧ status_code response = 200%nat.
Proof.
  split; [reflexivity|].
  destruct (missing_mail_rerenders (fw := framework)
              (without "mail" asha_submits) [bela])
    as (response & form & Hview & Hr & Hctx & _ & He & _); try reflexivity.
  exists response, form. split; [exact Hview|]. split; [exact Hctx|].
  split; [exact He|]. rewrite Hr. reflexivity.
Defined.

(** C4: the mail of the specification's example. *)
Lemma invalid_mail_rejected_witness :
  is_address (Str.strip "not-an-email") = false
  ∧ ∃ response form,
      Demo.orderFormView
        (submission "101" "Asha" "Rao" "10000" "not-an-email" "IN") []
      = (Ok response, [])
      ∧ context_form response = Some form
      ∧ status_code response = 200%nat.
Proof.
  split; [reflexivity|].
  destruct (invalid_mail_rejected (fw := framework)
              (submission "101" "Asha" "Rao" "10000" "not-an-email" "IN")
              [] "not-an-email")
    as (response & form & codes & Hview & Hr & Hctx & _); try reflexivity.
  { vm_compute. discriminate. }
  exists response, form. split; [exact Hview|]. split; [exact Hctx|].
  rewrite Hr. reflexivity.
Defined.

(** C4, as written: a mail that is no valid address as submitted, here
    because of the space before it, is accepted all the same once that
    space is removed, and the order is stored; and an empty mail, no valid
    address either, gets the required-field error and no format error. *)
Lemma padded_mail_is_accepted :
  let request :=
    submission "101" "Asha" "Rao" "10000" " asha@example.com" "IN" in
  let request' := submission "101" "Asha" "Rao" "10000" "" "IN" in
  (POST request !! "mail" = Some " asha@example.com"
   ∧ is_address " asha@example.com" = false
   ∧ Demo.orderFormView request [] = (Ok (HttpResponseRedirect "sv"), [asha]))
  ∧ (POST request' !! "mail" = Some ""
     ∧ is_address "" = false
     ∧ ∃ response form,
         Demo.orderFormView request' [] = (Ok response, [])
         ∧ context_form response = Some form
         ∧ form_errors [] form !! "mail" = Some ["required"]).
Proof.
  split.
  - repeat split; vm_compute; reflexivity.
  - split; [reflexivity|]. split; [reflexivity|].
    eexists _, _. split; [vm_compute; reflexivity|].
    split; [reflexivity|]. vm_compute. reflexivity.
Qed.

(** C6: a first name of twenty-one letters. *)
Lemma overlong_text_rejected_witness :
  (20 < String.length (Str.strip "Abcdefghijklmnopqrstu"))%nat
  ∧ ∃ response form,
      Demo.orderFormView
        (submission "101" "Abcdefghijklmnopqrstu" "Rao" "10000"
           "asha@example.com" "IN") []
      = (Ok response, [])
      ∧ context_form response = Some form
      ∧ status_code response = 200%nat.
Proof.
  assert (20 < String.length (Str.strip "Abcdefghijklmnopqrstu"))%nat as Hlen.
  { vm_compute. lia. }
  split; [exact Hlen|].
  destruct (overlong_text_rejected (fw := framework)
              (submission "101" "Abcdefghijklmnopqrstu" "Rao" "10000"
                 "asha@example.com" "IN")
              [] Orders_fname 20%nat "Abcdefghijklmnopqrstu")
    as (_ & response & form & codes & Hview & Hr & Hctx & _);
    [left; split; reflexivity|reflexivity|reflexivity|exact Hlen|].
  exists response, form. split; [exact Hview|]. split; [exact Hctx|].
  rewrite Hr. reflexivity.
Defined.

(** C6, as written: a submitted fname of twenty-one characters, the last
    of them a space, is accepted: twenty are left once it is trimmed. *)
Lemma padded_fname_is_accepted :
  let request :=
    submission "101" "Abcdefghijklmnopqrst " "Rao" "10000"
      "asha@example.com" "IN" in
  POST request !! "fname" = Some "Abcdefghijklmnopqrst "
  ∧ String.length "Abcdefghijklmnopqrst " = 21%nat
  ∧ Demo.orderFormView request []
    = (Ok (HttpResponseRedirect "sv"),
       [ {| oid := 101; fname := "Abcdefghijklmnopqrst"; lname := "Rao";
            price := 10000 : Demo.float; mail := "asha@example.com";
            addr := "IN" |} ]).
Proof. repeat split; vm_compute; reflexivity. Qed.

(** C7: a GET of the form. *)
Lemma get_renders_unbound_form_witness :
  method Demo.get = "GET"
  ∧ ∃ response form,
      Demo.get_response "ofv" Demo.get [asha] = (Ok response, [asha])
      ∧ status_code response = 200%nat
      ∧ context_form response = Some form
      ∧ is_bound form = false.
Proof.
  split; [reflexivity|].
  destruct (get_renders_unbound_form (fw := framework) Demo.get [asha])
    as (response & form & Hview & Hstatus & _ & Hctx & Hb & _); [reflexivity|].
  exists response, form. split; [exact Hview|]. split; [exact Hstatus|].
  split; [exact Hctx|exact Hb].
Defined.

(** C8: a second order leaves the first in place. *)
Lemma handlers_keep_rows_witness :
  asha ∈ [asha] ∧ asha ∈ (Demo.get_response "ofv" bela_submits [asha]).2.
Proof.
  assert (asha ∈ [asha]) as Hin by apply list_elem_of_here.
  split; [exact Hin|].
  exact (proj1 (handlers_keep_rows (fw := framework)
                  "ofv" bela_submits [asha] asha Hin)).
Defined.

(** C9: the submission without price. *)
Lemma every_field_required_witness :
  Orders_price ∈ Orders_fields
  ∧ in_empty_values (POST (without "price" asha_submits) !! "price") = true
  ∧ ∃ response form,
      Demo.orderFormView (without "price" asha_submits) []
      = (Ok response, [])
      ∧ form_errors [] form !! "price" = Some ["required"].
Proof.
  assert (Orders_price ∈ Orders_fields) as Hin.
  { unfold Orders_fields.
    repeat first [ apply list_elem_of_here | apply list_elem_of_further ]. }
  split; [exact Hin|]. split; [reflexivity|].
  destruct (every_field_required (fw := framework)
              (without "price" asha_submits) [] Orders_price Hin)
    as (_ & response & form & Hview & _ & _ & _ & He); try reflexivity.
  exists response, form. split; [exact Hview|exact He].
Defined.

(** C5: the three orders of the specification's example. *)
Lemma showView_lists_table_witness :
  oid asha = 101 ∧ oid bela = 102 ∧ oid chitra = 103
  ∧ ∃ response rows,
      Demo.showView Demo.get [asha; bela; chitra]
      = (Ok response, [asha; bela; chitra])
      ∧ context_obj response = Some rows
      ∧ rows ≡ₚ [asha; bela; chitra].
Proof.
  repeat (split; [reflexivity|]).
  destruct (showView_lists_table (fw := framework) Demo.get
              ([] : @table Demo.float))
    as [_ Hthree].
  exact (Hthree asha bela chitra eq_refl eq_refl eq_refl).
Defined.

(** X1: a path that no pattern has. *)
Lemma only_unknown_paths_fail_witness :
  "orders" ≠ "ofv" ∧ "orders" ≠ "sv"
  ∧ Demo.get_response "orders" asha_submits [asha] = (Raise Http404, [asha]).
Proof.
  assert ("orders" ≠ "ofv") as H1 by discriminate.
  assert ("orders" ≠ "sv") as H2 by discriminate.
  split; [exact H1|]. split; [exact H2|].
  exact (proj2 (only_unknown_paths_fail (fw := framework)
                  "orders" asha_submits [asha]) H1 H2).
Defined.


(** X3: a second order next to the first. *)
Lemma keys_stay_unique_witness :
  NoDup (oid <$> [asha])
  ∧ NoDup (oid <$> (Demo.get_response "ofv" bela_submits [asha]).2).
Proof.
  assert (NoDup (oid <$> [asha])) as Hnd by apply NoDup_singleton.
  split; [exact Hnd|].
  exact (keys_stay_unique (fw := framework) "ofv" bela_submits [asha] Hnd).
Defined.

(** X4: the first order, submitted twice. *)
Lemma resubmission_refused_witness :
  accepts (fw := framework) (POST asha_submits) [] = true
  ∧ ∃ r response form,
      Demo.orderFormView asha_submits [] = (Ok (HttpResponseRedirect "sv"), [r])
      ∧ Demo.orderFormView asha_submits [r] = (Ok response, [r])
      ∧ context_form response = Some form
      ∧ form_errors [r] form = {[ "oid" := ["unique"] ]}.
Proof.
  assert (accepts (fw := framework) (POST asha_submits) [] = true)
    as Hacc by (vm_compute; reflexivity).
  split; [exact Hacc|].
  destruct (resubmission_refused (fw := framework)
              asha_submits [] eq_refl Hacc)
    as (r & response & form & H1 & H2 & _ & _ & H3 & H4).
  exists r, response, form.
  split; [exact H1|]. split; [exact H2|]. split; [exact H3|exact H4].
Defined.

(** X5: an order with a smaller key than the one in the table, then the
    listing. *)
Lemma created_order_is_listed_witness :
  accepts (fw := framework) (POST asha_submits) [bela] = true
  ∧ ∃ r redirection target response rows,
      Demo.get_response "ofv" asha_submits [bela]
      = (Ok redirection, [bela] ++ [r])
      ∧ location redirection = Some target
      ∧ Demo.get_response target Demo.get ([bela] ++ [r])
        = (Ok response, [bela] ++ [r])
      ∧ context_obj response = Some rows
      ∧ rows ≡ₚ [bela] ++ [r].
Proof.
  assert (accepts (fw := framework) (POST asha_submits) [bela] = true)
    as Hacc by (vm_compute; reflexivity).
  split; [exact Hacc|].
  destruct (created_order_is_listed (fw := framework)
              asha_submits Demo.get [bela] eq_refl Hacc)
    as (r & redirection & target & response & rows
        & H1 & H2 & H3 & _ & H4 & H5 & _).
  exists r, redirection, target, response, rows.
  split; [exact H1|]. split; [exact H2|]. split; [exact H3|].
  split; [exact H4|exact H5].
Defined.

(** With the rows by ascending key, the listing shows the new order 101
    before the stored order 102. *)
Lemma listing_by_key :
  Demo.get_response "ofv" asha_submits [bela]
  = (Ok (HttpResponseRedirect "sv"), [bela; asha])
  ∧ ∃ response,
      Demo.get_response "sv" Demo.get [bela; asha]
      = (Ok response, [bela; asha])
      ∧ context_obj response = Some [asha; bela].
Proof.
  split; [vm_compute; reflexivity|].
  eexists. split; [reflexivity|]. vm_compute. reflexivity.
Qed.

(** A key beyond the 64 bits of its column is refused by the model
    field: the form page comes back with the error [max_value] for oid,
    and nothing is stored. *)
Lemma key_out_of_range_refused :
  let request :=
    submission "9223372036854775808" "Asha" "Rao" "10000"
      "asha@example.com" "IN" in
  ∃ response form,
    Demo.orderFormView request [] = (Ok response, [])
    ∧ status_code response = 200%nat
    ∧ context_form response = Some form
    ∧ form_errors [] form = {[ "oid" := ["max_value"] ]}.
Proof.
  eexists _, _. split; [vm_compute; reflexivity|].
  split; [reflexivity|]. split; [reflexivity|]. vm_compute. reflexivity.
Qed.

(** X6: the pattern of the listing. *)
Lemma urlpatterns_round_trip_witness :
  path "sv" views_showView "show_url" ∈ urlpatterns
  ∧ reverse "show_url" = Ok "sv"
  ∧ resolve "sv" = Some (path "sv" views_showView "show_url").
Proof.
  assert (path "sv" views_showView "show_url" ∈ urlpatterns) as Hin.
  { unfold urlpatterns. apply list_elem_of_further, list_elem_of_here. }
  split; [exact Hin|].
  exact (urlpatterns_round_trip (path "sv" views_showView "show_url") Hin).
Defined.

(** X7: the same bad mail in two submissions that share nothing else,
    against two tables. *)
Lemma no_cross_field_validation_witness :
  Orders_mail ∈ Orders_fields
  ∧ POST (submission "101" "Asha" "Rao" "10000" "not-an-email" "IN") !! "mail"
    = POST (submission "" "" "x" "free" "not-an-email" "") !! "mail"
  ∧ form_errors []
      (OrderForm__init__
         (Some (POST (submission "101" "Asha" "Rao" "10000"
                        "not-an-email" "IN")))) !! "mail"
    = form_errors [asha]
        (OrderForm__init__
           (Some (POST (submission "" "" "x" "free"
                          "not-an-email" "")))) !! "mail".
Proof.
  assert (Orders_mail ∈ Orders_fields) as Hin.
  { unfold Orders_fields.
    repeat first [ apply list_elem_of_here | apply list_elem_of_further ]. }
  split; [exact Hin|]. split; [reflexivity|].
  apply (no_cross_field_validation (fw := framework)
           Orders_mail _ _ [] [asha] Hin); [reflexivity|].
  left. simpl. discriminate.
Defined.

(** X8: a second order next to the first. *)
Lemma stored_rows_fit_columns_witness :
  (∀ r, r ∈ [asha] → row_ok r = true)
  ∧ ∀ r, r ∈ (Demo.get_response "ofv" bela_submits [asha]).2 →
         row_ok r = true.
Proof.
  assert (∀ r, r ∈ [asha] → row_ok r = true) as Hdb.
  { intros r ->%list_elem_of_singleton. vm_compute. reflexivity. }
  split; [exact Hdb|].
  exact (stored_rows_fit_columns (fw := framework)
           "ofv" bela_submits [asha] Hdb).
Defined.

End Examples.
